(** * The Bedrock pricing calculator (app.py), embedded and verified

    The Flask application estimates token counts from text and uploaded
    files, derives an output-token estimate and prices both with fixed
    per-1000-token rates.  This development embeds the Python code
    function by function:

    - Python [int] is [Z];
    - Python [float] is IEEE binary64, modelled exactly on its non-negative
      fragment (module [PyFloat]): every float the program computes comes
      from non-negative token counts and positive constants;
    - Python [str] is a list of code points, [bytes] a list of [byte];
    - exceptions are an explicit [result] type and [try]/[except] is a
      match on it;
    - the Flask request is a record of the parts the handler reads.
*)

From Stdlib Require Import ZArith Lia List Bool String Ascii.
From Stdlib Require Import Strings.Byte.
From Stdlib Require Import Reals Lra.
From Stdlib Require Import Permutation.
Import ListNotations.

Local Open Scope Z_scope.

(* ================================================================== *)
(** * Exceptions *)

Inductive exn : Type :=
| OverflowError
| ValueError
| AttributeError
| UnicodeDecodeError
| BadRequest
| RequestEntityTooLarge.

Inductive result (A : Type) : Type :=
| Ok (a : A)
| Raise (e : exn).

Arguments Ok {A} a.
Arguments Raise {A} e.

Definition bind {A B : Type} (r : result A) (k : A -> result B) : result B :=
  match r with
  | Ok a => k a
  | Raise e => Raise e
  end.

Notation "x <- r ;; k" := (bind r (fun x => k))
  (at level 61, r at next level, right associativity).

(* ================================================================== *)
(** * Python floats: non-negative IEEE binary64 *)

Module PyFloat.

(** Smallest exponent of a binary64 significand: subnormals and zero are
    [Fin m emin] with [m < 2^52]. *)
Definition emin : Z := -1074.

(** Largest exponent of a finite binary64 number [m * 2^e], [m < 2^53]. *)
Definition emax : Z := 971.

(** [Fin m e] is the number [m * 2^e]. *)
Inductive float : Type :=
| Fin (m e : Z)
| Inf
| NaN.

(** Nearest integer to [a / b], ties to the even one ([0 <= a], [0 < b]). *)
Definition rne_div (a b : Z) : Z :=
  let q := a / b in
  match 2 * (a mod b) ?= b with
  | Lt => q
  | Gt => q + 1
  | Eq => if Z.even q then q else q + 1
  end.

(** [p * 2^(-e) / q] as a fraction of integers, whatever the sign of [e]. *)
Definition scaled_num (p e : Z) : Z := p * 2 ^ Z.max 0 (- e).
Definition scaled_den (q e : Z) : Z := q * 2 ^ Z.max 0 e.

(** [floor (log2 (p / q))] for positive [p] and [q]. *)
Definition ilog2_frac (p q : Z) : Z :=
  let k := Z.log2 p - Z.log2 q in
  if scaled_num p k <? scaled_den q k then k - 1 else k.

(** The binary64 number nearest to the rational [p / q] ([0 <= p],
    [0 < q]), ties to even; [Inf] on overflow.  Every operation below
    rounds its exact result with [fl], as IEEE 754 prescribes. *)
Definition fl (p q : Z) : float :=
  if p <=? 0 then Fin 0 emin else
  let e := Z.max (ilog2_frac p q - 52) emin in
  let m := rne_div (scaled_num p e) (scaled_den q e) in
  let '(m, e) := if m =? 2 ^ 53 then (2 ^ 52, e + 1) else (m, e) in
  if emax <? e then Inf else Fin m e.

(** Rounding of the dyadic number [m * 2^e]. *)
Definition fl2 (m e : Z) : float := fl (scaled_num m (- e)) (scaled_den 1 (- e)).

(** A float literal [p / q] of the source text, e.g. [0.003]. *)
Definition literal (p q : Z) : float := fl p q.

(** [float(n)] as done implicitly by [n * x]: OverflowError "int too
    large to convert to float". *)
Definition of_int (n : Z) : result float :=
  match fl n 1 with
  | Inf => Raise OverflowError
  | x => Ok x
  end.

(** [a / b] on two ints: the correctly rounded quotient, OverflowError
    "integer division result too large for a float". *)
Definition truediv (a b : Z) : result float :=
  match fl a b with
  | Inf => Raise OverflowError
  | x => Ok x
  end.

Definition fmul (x y : float) : float :=
  match x, y with
  | Fin m1 e1, Fin m2 e2 => fl2 (m1 * m2) (e1 + e2)
  | Fin m _, Inf | Inf, Fin m _ => if m =? 0 then NaN else Inf
  | Inf, Inf => Inf
  | _, _ => NaN
  end.

Definition fadd (x y : float) : float :=
  match x, y with
  | Fin m1 e1, Fin m2 e2 =>
      let e := Z.min e1 e2 in
      fl2 (m1 * 2 ^ (e1 - e) + m2 * 2 ^ (e2 - e)) e
  | NaN, _ | _, NaN => NaN
  | _, _ => Inf
  end.

(** [int(x)]: truncation toward zero. *)
Definition to_int (x : float) : result Z :=
  match x with
  | Fin m e => Ok (if e <? 0 then m / 2 ^ (- e) else m * 2 ^ e)
  | Inf => Raise OverflowError
  | NaN => Raise ValueError
  end.

(** [round(x)] with one argument: nearest int, ties to even. *)
Definition round_to_int (x : float) : result Z :=
  match x with
  | Fin m e => Ok (rne_div (scaled_num m (- e)) (scaled_den 1 (- e)))
  | Inf => Raise OverflowError
  | NaN => Raise ValueError
  end.

(** [round(x, ndigits)] for [0 <= ndigits]: CPython prints [x] with
    [ndigits] decimals, correctly rounded (ties to even on the exact
    binary value), and reads the decimal string back as the nearest
    float.  Infinities and NaN round to themselves; a result too large
    for a float is an OverflowError. *)
Definition round_ndigits (x : float) (ndigits : Z) : result float :=
  match x with
  | Fin m e =>
      let scale := 10 ^ ndigits in
      let d := rne_div (scaled_num (m * scale) (- e)) (scaled_den 1 (- e)) in
      match fl d scale with
      | Inf => Raise OverflowError
      | r => Ok r
      end
  | _ => Ok x
  end.

Definition eqb (x y : float) : bool :=
  match x, y with
  | Fin m1 e1, Fin m2 e2 => (m1 =? m2) && (e1 =? e2)
  | Inf, Inf => true
  | _, _ => false
  end.

(** The floats [fl] produces. *)
Definition canonical (x : float) : Prop :=
  match x with
  | Fin m e =>
      emin <= e <= emax /\ 0 <= m < 2 ^ 53 /\ (emin < e -> 2 ^ 52 <= m)
  | _ => True
  end.

(** [2^e] as a real number, for any integer [e]. *)
Definition bpow (e : Z) : R := powerRZ 2 e.

(** The real number a finite float stands for. *)
Definition F2R (x : float) : R :=
  match x with
  | Fin m e => (IZR m * bpow e)%R
  | _ => 0%R
  end.

(** A rational at or above [2^1024 - 2^970] rounds to [Inf]; below it the
    result is finite. *)
Definition overflow_threshold : Z := 2 ^ 1024 - 2 ^ 970.

End PyFloat.

(* ================================================================== *)
(** * Python strings and bytes *)

(** A [str] is a sequence of Unicode code points. *)
Definition pystr : Type := list Z.

(** An ASCII literal of the source text as a [str]. *)
Definition str_lit (s : string) : pystr :=
  map (fun c => Z.of_N (N_of_ascii c)) (list_ascii_of_string s).

Definition str_eqb (a b : pystr) : bool :=
  if list_eq_dec Z.eq_dec a b then true else false.

(** [bool(s)]: a string is true when it is not empty. *)
Definition str_truthy (s : pystr) : bool :=
  match s with
  | [] => false
  | _ :: _ => true
  end.

(** [ch.isspace()], the characters [str.strip()] removes. *)
Definition is_space (c : Z) : bool :=
  ((9 <=? c) && (c <=? 13)) || ((28 <=? c) && (c <=? 32))
  || (c =? 133) || (c =? 160) || (c =? 5760)
  || ((8192 <=? c) && (c <=? 8202))
  || (c =? 8232) || (c =? 8233) || (c =? 8239) || (c =? 8287)
  || (c =? 12288).

Fixpoint lstrip (s : pystr) : pystr :=
  match s with
  | c :: s' => if is_space c then lstrip s' else s
  | [] => []
  end.

Definition rstrip (s : pystr) : pystr := rev (lstrip (rev s)).

(** [s.strip()] *)
Definition strip (s : pystr) : pystr := rstrip (lstrip s).

(** [len(s)] *)
Definition len {A : Type} (s : list A) : Z := Z.of_nat (List.length s).

Definition bytes : Type := list byte.

Definition byte_val (b : byte) : Z := Z.of_N (Byte.to_N b).

Definition is_continuation (b : byte) : bool :=
  (128 <=? byte_val b) && (byte_val b <=? 191).

(** A code point that a sequence of [n] bytes may encode: no overlong
    form, no surrogate, nothing beyond U+10FFFF. *)
Definition well_formed_scalar (n c : Z) : bool :=
  (match n with
   | 2 => 128 <=? c
   | 3 => 2048 <=? c
   | _ => 65536 <=? c
   end)
  && negb ((55296 <=? c) && (c <=? 57343))
  && (c <=? 1114111).

(** [content.decode('utf-8')]; [None] stands for UnicodeDecodeError. *)
Fixpoint utf8_decode (bs : bytes) : option pystr :=
  match bs with
  | [] => Some []
  | b0 :: r0 =>
      let v0 := byte_val b0 in
      if v0 <? 128 then option_map (cons v0) (utf8_decode r0)
      else if (192 <=? v0) && (v0 <? 224) then
        match r0 with
        | b1 :: r1 =>
            let c := (v0 - 192) * 64 + (byte_val b1 - 128) in
            if is_continuation b1 && well_formed_scalar 2 c
            then option_map (cons c) (utf8_decode r1) else None
        | _ => None
        end
      else if (224 <=? v0) && (v0 <? 240) then
        match r0 with
        | b1 :: b2 :: r2 =>
            let c := (v0 - 224) * 4096 + (byte_val b1 - 128) * 64
                     + (byte_val b2 - 128) in
            if is_continuation b1 && is_continuation b2
               && well_formed_scalar 3 c
            then option_map (cons c) (utf8_decode r2) else None
        | _ => None
        end
      else if (240 <=? v0) && (v0 <? 248) then
        match r0 with
        | b1 :: b2 :: b3 :: r3 =>
            let c := (v0 - 240) * 262144 + (byte_val b1 - 128) * 4096
                     + (byte_val b2 - 128) * 64 + (byte_val b3 - 128) in
            if is_continuation b1 && is_continuation b2
               && is_continuation b3 && well_formed_scalar 4 c
            then option_map (cons c) (utf8_decode r3) else None
        | _ => None
        end
      else None
  end.

(** [pat] is a prefix of [s]. *)
Fixpoint starts_with (pat s : bytes) : bool :=
  match pat, s with
  | [], _ => true
  | p :: pat', c :: s' => Byte.eqb p c && starts_with pat' s'
  | _ :: _, [] => false
  end.

(** The scan of [bytes.count]: from left to right, and after a match the
    search resumes behind it ([skip] bytes of the match are still to be
    passed over), so the matches counted do not overlap. *)
Fixpoint count_scan (pat s : bytes) (skip : nat) : Z :=
  match s with
  | [] => 0
  | _ :: s' =>
      match skip with
      | S k => count_scan pat s' k
      | O =>
          if starts_with pat s
          then 1 + count_scan pat s' (Nat.pred (List.length pat))
          else count_scan pat s' 0
      end
  end.

(** [s.count(pat)] for [bytes]; an empty pattern matches between all
    bytes. *)
Definition bytes_count (s pat : bytes) : Z :=
  match pat with
  | [] => len s + 1
  | _ :: _ => count_scan pat s 0
  end.

(** The number of positions of [s] at which [pat] occurs. *)
Fixpoint occurrences (pat s : bytes) : Z :=
  match s with
  | [] => 0
  | _ :: s' => (if starts_with pat s then 1 else 0) + occurrences pat s'
  end.

(** [b'/Page'] *)
Definition slash_Page : bytes := [x2f; x50; x61; x67; x65].

(** ASCII file names, as [secure_filename] returns them. *)
Definition ascii_lower (c : ascii) : ascii :=
  let n := N_of_ascii c in
  if ((65 <=? n) && (n <=? 90))%N then ascii_of_N (n + 32) else c.

(** [name.lower()] *)
Fixpoint lower (s : string) : string :=
  match s with
  | EmptyString => EmptyString
  | String c s' => String (ascii_lower c) (lower s')
  end.

(** [name.endswith(suffix)] *)
Fixpoint endswith (name suffix : string) : bool :=
  (String.eqb name suffix)
  || match name with
     | EmptyString => false
     | String _ name' => endswith name' suffix
     end.

(* ================================================================== *)
(** * Values parsed from a JSON body *)

(** What [request.json] can hold.  The handler only tests the truth value
    of a number, so a number is kept as that bit. *)
#[warnings="-register-all"] Inductive pyvalue : Type :=
| PyNone
| PyBool (b : bool)
| PyNum (nonzero : bool)
| PyStr (s : pystr)
| PyList (items : list pyvalue)
| PyDict (items : list (pystr * pyvalue)).

(** [bool(v)] *)
Definition truthy (v : pyvalue) : bool :=
  match v with
  | PyNone => false
  | PyBool b => b
  | PyNum nonzero => nonzero
  | PyStr s => str_truthy s
  | PyList [] => false
  | PyList (_ :: _) => true
  | PyDict [] => false
  | PyDict (_ :: _) => true
  end.

(** Lookup in a mapping kept as its list of items (keys are distinct in a
    Python dict; a MultiDict returns the first value of a key). *)
Fixpoint lookup {V : Type} (key : pystr) (items : list (pystr * V)) : option V :=
  match items with
  | [] => None
  | (k, v) :: rest => if str_eqb k key then Some v else lookup key rest
  end.

(** [data.get(key, default)]: only a dict has the method. *)
Definition py_get (data : pyvalue) (key : pystr) (default : pyvalue)
  : result pyvalue :=
  match data with
  | PyDict items =>
      Ok (match lookup key items with Some v => v | None => default end)
  | _ => Raise AttributeError
  end.

(* ================================================================== *)
(** * The calculator *)

Record PricingModel : Type := {
  model_id : string;
  name : string;
  input_price_per_1k : PyFloat.float;
  output_price_per_1k : PyFloat.float
}.

Definition SONNET_4 : PricingModel := {|
  model_id := "us.anthropic.claude-sonnet-4-5-20250929-v1:0";
  name := "Claude Sonnet 4.5";
  input_price_per_1k := PyFloat.literal 3 1000;
  output_price_per_1k := PyFloat.literal 15 1000
|}.

Definition REQUESTS_PER_DAY : Z := 100.

(** <<
    def estimate_text_tokens(text):
        if not text:
            return 0
        return max(1, len(text.strip()) // 4)
    >> *)
Definition estimate_text_tokens (text : pyvalue) : result Z :=
  if negb (truthy text) then Ok 0
  else
    match text with
    | PyStr s => Ok (Z.max 1 (len (strip s) / 4))
    | _ => Raise AttributeError
    end.

(** <<
    def estimate_output_tokens(input_tokens):
        estimated = int(input_tokens * 0.6)
        return max(50, min(estimated, 4000))
    >> *)
Definition estimate_output_tokens (input_tokens : Z) : result Z :=
  x <- PyFloat.of_int input_tokens ;;
  estimated <- PyFloat.to_int (PyFloat.fmul x (PyFloat.literal 6 10)) ;;
  Ok (Z.max 50 (Z.min estimated 4000)).

(** The object handed to [count_pdf_pages]: [bytes], or an object whose
    [count] call fails. *)
Inductive file_content : Type :=
| BytesObj (b : bytes)
| NoCount.

(** [file_content.count(pat)] *)
Definition count_method (file_content : file_content) (pat : bytes)
  : result Z :=
  match file_content with
  | BytesObj b => Ok (bytes_count b pat)
  | NoCount => Raise AttributeError
  end.

(** <<
    def count_pdf_pages(file_content):
        try:
            pages = file_content.count(b'/Page')
            return max(1, pages)
        except:
            return 1
    >> *)
Definition count_pdf_pages (file_content : file_content) : Z :=
  match (pages <- count_method file_content slash_Page ;;
         Ok (Z.max 1 pages)) with
  | Ok r => r
  | Raise _ => 1
  end.

Record Breakdown : Type := {
  text_tokens : Z;
  image_tokens : Z;
  document_tokens : Z
}.

Definition no_tokens : Breakdown :=
  {| text_tokens := 0; image_tokens := 0; document_tokens := 0 |}.

(** An uploaded part: its file name and what [read()] returns. *)
Record FileStorage : Type := {
  filename : pystr;
  content : bytes
}.

(** [bool(f)] of werkzeug's FileStorage is [bool(f.filename)]. *)
Definition FileStorage_bool (f : FileStorage) : bool := str_truthy (filename f).

Definition image_extensions : list string :=
  [".jpg"; ".jpeg"; ".png"; ".gif"; ".webp"]%string.

Record Cost : Type := {
  input : PyFloat.float;
  output : PyFloat.float;
  total_per_request : PyFloat.float;
  weekly_estimate : PyFloat.float;
  monthly_estimate : PyFloat.float
}.

(** <<
    def calculate_cost(input_tokens, output_tokens):
        input_cost = (input_tokens / 1000) * SONNET_4['input_price_per_1k']
        output_cost = (output_tokens / 1000) * SONNET_4['output_price_per_1k']
        total_cost = input_cost + output_cost
        daily_cost = total_cost * REQUESTS_PER_DAY
        weekly_cost = daily_cost * 7
        monthly_cost = daily_cost * 30
        return {'input': round(input_cost, 6), ...}
    >> *)
Definition calculate_cost (input_tokens output_tokens : Z) : result Cost :=
  i <- PyFloat.truediv input_tokens 1000 ;;
  let input_cost := PyFloat.fmul i (input_price_per_1k SONNET_4) in
  o <- PyFloat.truediv output_tokens 1000 ;;
  let output_cost := PyFloat.fmul o (output_price_per_1k SONNET_4) in
  let total_cost := PyFloat.fadd input_cost output_cost in
  per_day <- PyFloat.of_int REQUESTS_PER_DAY ;;
  let daily_cost := PyFloat.fmul total_cost per_day in
  seven <- PyFloat.of_int 7 ;;
  let weekly_cost := PyFloat.fmul daily_cost seven in
  thirty <- PyFloat.of_int 30 ;;
  let monthly_cost := PyFloat.fmul daily_cost thirty in
  r_input <- PyFloat.round_ndigits input_cost 6 ;;
  r_output <- PyFloat.round_ndigits output_cost 6 ;;
  r_total <- PyFloat.round_ndigits total_cost 6 ;;
  r_weekly <- PyFloat.round_ndigits weekly_cost 4 ;;
  r_monthly <- PyFloat.round_ndigits monthly_cost 4 ;;
  Ok {| input := r_input;
        output := r_output;
        total_per_request := r_total;
        weekly_estimate := r_weekly;
        monthly_estimate := r_monthly |}.

(** JSON written by [jsonify]. *)
#[warnings="-register-all"] Inductive jvalue : Type :=
| JBool (b : bool)
| JInt (n : Z)
| JFloat (x : PyFloat.float)
| JStr (s : string)
| JObj (fields : list (string * jvalue)).

(** A response: status code and JSON body. *)
Record Response : Type := {
  status : Z;
  body : jvalue
}.

(** The parts of [flask.request] the handler reads. *)
Record Request : Type := {
  files : list (pystr * FileStorage);
  is_json : bool;
  json : option pyvalue;
  form : list (pystr * pystr)
}.

(** [request.files.getlist(key)] *)
Definition getlist {V : Type} (key : pystr) (items : list (pystr * V)) : list V :=
  map snd (filter (fun kv => str_eqb (fst kv) key) items).

(** [key in request.files] *)
Definition has_key {V : Type} (key : pystr) (items : list (pystr * V)) : bool :=
  existsb (fun kv => str_eqb (fst kv) key) items.

Definition nonempty {A : Type} (l : list A) : bool :=
  match l with
  | [] => false
  | _ :: _ => true
  end.

(** [request.json]: a body that does not parse is a BadRequest. *)
Definition request_json (request : Request) : result pyvalue :=
  match json request with
  | Some data => Ok data
  | None => Raise BadRequest
  end.

Definition set_text_tokens (breakdown : Breakdown) (n : Z) : Breakdown :=
  {| text_tokens := n;
     image_tokens := image_tokens breakdown;
     document_tokens := document_tokens breakdown |}.

Definition total_tokens (breakdown : Breakdown) : Z :=
  text_tokens breakdown + image_tokens breakdown + document_tokens breakdown.

Definition breakdown_json (breakdown : Breakdown) : jvalue :=
  JObj [("text_tokens", JInt (text_tokens breakdown));
        ("image_tokens", JInt (image_tokens breakdown));
        ("document_tokens", JInt (document_tokens breakdown))]%string.

Definition cost_json (cost : Cost) : jvalue :=
  JObj [("input", JFloat (input cost));
        ("output", JFloat (output cost));
        ("total_per_request", JFloat (total_per_request cost));
        ("weekly_estimate", JFloat (weekly_estimate cost));
        ("monthly_estimate", JFloat (monthly_estimate cost))]%string.

(** The body of the validation failure (lines 150-153). *)
Definition validation_failure : Response :=
  {| status := 400;
     body := JObj [("success", JBool false);
                   ("error", JStr "Please enter a prompt or upload files")]%string |}.

(** The body of a successful calculation (lines 161-174). *)
Definition success (total_input_tokens output_tokens : Z)
    (breakdown : Breakdown) (cost : Cost) : Response :=
  {| status := 200;
     body := JObj [("success", JBool true);
                   ("model_id", JStr (model_id SONNET_4));
                   ("tokens", JObj [("input", JInt total_input_tokens);
                                    ("output", JInt output_tokens);
                                    ("breakdown", breakdown_json breakdown)]);
                   ("cost", cost_json cost);
                   ("pricing_per_1k",
                    JObj [("input", JFloat (input_price_per_1k SONNET_4));
                          ("output", JFloat (output_price_per_1k SONNET_4))])]%string |}.

Section Handler.

(** [werkzeug.utils.secure_filename], a library function outside this
    repository: it returns an ASCII file name. *)
Variable secure_filename : pystr -> string.

(** [str(e)], the text of an exception. *)
Variable exn_str : exn -> string.

(** One turn of the loop of [process_files] (lines 55-73). *)
Definition process_file (acc : Breakdown) (file : FileStorage) : Breakdown :=
  let filename := lower (secure_filename (filename file)) in
  let content := content file in
  if existsb (endswith filename) image_extensions then
    {| text_tokens := text_tokens acc;
       image_tokens := image_tokens acc + 1600;
       document_tokens := document_tokens acc |}
  else if endswith filename ".pdf" then
    let pages := count_pdf_pages (BytesObj content) in
    {| text_tokens := text_tokens acc;
       image_tokens := image_tokens acc;
       document_tokens := document_tokens acc + pages * 500 |}
  else if endswith filename ".txt" then
    let attempt :=
      match utf8_decode content with
      | Some text => estimate_text_tokens (PyStr text)
      | None => Raise UnicodeDecodeError
      end in
    {| text_tokens :=
         match attempt with
         | Ok n => text_tokens acc + n
         | Raise _ => text_tokens acc + len content / 4
         end;
       image_tokens := image_tokens acc;
       document_tokens := document_tokens acc |}
  else acc.

(** <<
    def process_files(files):
        text_tokens = 0; image_tokens = 0; document_tokens = 0
        for file in files: ...
        return {'text_tokens': text_tokens, ...}
    >> *)
Definition process_files (files : list FileStorage) : Breakdown :=
  fold_left process_file files no_tokens.

(** [[f for f in files if f and f.filename]] (line 127) *)
Definition valid_files (files : list FileStorage) : list FileStorage :=
  filter (fun f => FileStorage_bool f && str_truthy (filename f)) files.

(** Lines 121-129: the breakdown of the uploaded files. *)
Definition files_breakdown (request : Request) : Breakdown :=
  if nonempty (files request) && has_key (str_lit "files") (files request) then
    let files := getlist (str_lit "files") (files request) in
    let valid_files := valid_files files in
    if nonempty valid_files then process_files valid_files else no_tokens
  else no_tokens.

(** Lines 131-140: the text input, from the JSON body or from the form. *)
Definition text_input_step (request : Request) (breakdown : Breakdown)
  : result Breakdown :=
  if is_json request then
    data <- request_json request ;;
    text_input <- py_get data (str_lit "text_input") (PyStr []) ;;
    if truthy text_input then
      n <- estimate_text_tokens text_input ;;
      Ok (set_text_tokens breakdown n)
    else Ok breakdown
  else if nonempty (form request) then
    let text_input :=
      match lookup (str_lit "text_input") (form request) with
      | Some v => v
      | None => []
      end in
    if str_truthy text_input then
      n <- estimate_text_tokens (PyStr text_input) ;;
      Ok (set_text_tokens breakdown n)
    else Ok breakdown
  else Ok breakdown.

(** Lines 121-140: the breakdown the totals are computed from. *)
Definition request_breakdown (request : Request) : result Breakdown :=
  text_input_step request (files_breakdown request).

(** Lines 142-174, from the breakdown on. *)
Definition respond (breakdown : Breakdown) : result Response :=
  let total_input_tokens := total_tokens breakdown in
  if total_input_tokens =? 0 then Ok validation_failure
  else
    output_tokens <- estimate_output_tokens total_input_tokens ;;
    cost <- calculate_cost total_input_tokens output_tokens ;;
    Ok (success total_input_tokens output_tokens breakdown cost).

(** The handler of [POST /api/calc]: the [try] block, and the [except]
    clause that turns any exception into a 500 response. *)
Definition calculate (request : Request) : Response :=
  match (breakdown <- request_breakdown request ;; respond breakdown) with
  | Ok response => response
  | Raise e =>
      {| status := 500;
         body := JObj [("success", JBool false);
                       ("error", JStr ("Server error: " ++ exn_str e))]%string |}
  end.

End Handler.

(** ** Definitions used to state the properties *)

(** The sum of two breakdowns, category by category. *)
Definition breakdown_add (a b : Breakdown) : Breakdown :=
  {| text_tokens := text_tokens a + text_tokens b;
     image_tokens := image_tokens a + image_tokens b;
     document_tokens := document_tokens a + document_tokens b |}.

(** The name the loop of [process_files] tests against the extensions. *)
Definition tested_name (secure_filename : pystr -> string) (file : FileStorage)
  : string :=
  lower (secure_filename (filename file)).

(** The invariant of a token breakdown: no count is negative. *)
Definition nonneg_breakdown (b : Breakdown) : Prop :=
  0 <= text_tokens b /\ 0 <= image_tokens b /\ 0 <= document_tokens b.

(** The output estimate as the specification words it:
    [clamp(round(input_tokens * 0.6), 50, 4000)]. *)
Definition estimate_output_tokens_as_specified (input_tokens : Z) : result Z :=
  x <- PyFloat.of_int input_tokens ;;
  rounded <- PyFloat.round_to_int (PyFloat.fmul x (PyFloat.literal 6 10)) ;;
  Ok (Z.max 50 (Z.min rounded 4000)).

(** The check run on the small inputs of [estimate_output_tokens]: the
    result is [3 * n // 5] clamped to [50, 4000]. *)
Definition output_estimate_agrees (n : Z) : bool :=
  match estimate_output_tokens n with
  | Ok r => r =? Z.max 50 (Z.min (3 * n / 5) 4000)
  | Raise _ => false
  end.

(** A sanitiser for the examples: file names made of ASCII letters,
    digits and inner dots, which [secure_filename] returns unchanged. *)
Definition plain_name (s : pystr) : string :=
  string_of_list_ascii (map (fun c => ascii_of_N (Z.to_N c)) s).

(** An exception text for the examples. *)
Definition plain_text (e : exn) : string :=
  match e with
  | OverflowError => "int too large to convert to float"
  | ValueError => "cannot convert float NaN to integer"
  | AttributeError => "object has no attribute"
  | UnicodeDecodeError => "invalid start byte"
  | BadRequest => "400 Bad Request"
  | RequestEntityTooLarge => "413 Request Entity Too Large"
  end.

(** [bytes] of an ASCII literal. *)
Definition bytes_lit (s : string) : bytes :=
  map byte_of_ascii (list_ascii_of_string s).

(** ** Example files and requests *)

(** A named upload of zero bytes. *)
Definition zero_byte_photo : FileStorage :=
  {| filename := str_lit "Photo.PNG"; content := [] |}.

(** A PDF whose bytes hold [/Page] three times, once inside [/Pages]. *)
Definition three_page_report : FileStorage :=
  {| filename := str_lit "report.pdf";
     content := bytes_lit "<< /Type /Pages /Count 2 >> << /Type /Page >> << /Type /Page >>" |}.

(** A text file of 24 characters. *)
Definition notes_file : FileStorage :=
  {| filename := str_lit "notes.txt";
     content := bytes_lit "twenty-four characters.." |}.

(** The part a browser sends for a file input with no file selected. *)
Definition unselected_file : FileStorage :=
  {| filename := []; content := [] |}.

(** A file of a type the calculator does not know. *)
Definition archive_file : FileStorage :=
  {| filename := str_lit "data.zip"; content := bytes_lit "PK" |}.

(** A multipart form post: the uploads under the key [files] and the
    form field [text_input]. *)
Definition upload_request (uploads : list FileStorage) (text_input : string)
  : Request :=
  {| files := map (fun f => (str_lit "files", f)) uploads;
     is_json := false;
     json := None;
     form := [(str_lit "text_input", str_lit text_input)] |}.

(** A JSON post [{text_input: ...}]. *)
Definition json_request (text_input : string) : Request :=
  {| files := [];
     is_json := true;
     json := Some (PyDict [(str_lit "text_input", PyStr (str_lit text_input))]);
     form := [] |}.

(** The answer of the [except] clause (lines 180-183). *)
Definition server_error (exn_str : exn -> string) (e : exn) : Response :=
  {| status := 500;
     body := JObj [("success", JBool false);
                   ("error", JStr ("Server error: " ++ exn_str e))]%string |}.

(** The view of the route [/api/calc] on a request as it arrives.  The
    first thing the [try] block does with the request is to read
    [request.files] (line 124): Flask parses the body on this access, and
    the access raises instead of returning when the body is refused
    (RequestEntityTooLarge for a body over the [MAX_CONTENT_LENGTH] of
    line 12, or over the parser's limits on parts and form fields).
    [Raise e] is a request on which this access raises [e], which the
    [except] clause answers; [Ok request] is one that is parsed, to the
    [request] the rest of the handler reads. *)
Definition api_calc (secure_filename : pystr -> string)
    (exn_str : exn -> string) (incoming : result Request) : Response :=
  match incoming with
  | Raise e => server_error exn_str e
  | Ok request => calculate secure_filename exn_str request
  end.

(** A text file whose bytes are not valid UTF-8. *)
Definition binary_text_file : FileStorage :=
  {| filename := str_lit "blob.txt"; content := [xff; xfe; x00] |}.

(** A text file of four euro signs: 12 bytes, 4 characters. *)
Definition euro_text_file : FileStorage :=
  {| filename := str_lit "price.txt";
     content := [xe2; x82; xac; xe2; x82; xac; xe2; x82; xac; xe2; x82; xac] |}.

(** A JSON post whose [text_input] is a number. *)
Definition number_request : Request :=
  {| files := [];
     is_json := true;
     json := Some (PyDict [(str_lit "text_input", PyNum true)]);
     form := [] |}.

(** A form post with a part under the key [avatar] beside one under
    [files], and no form field. *)
Definition avatar_request : Request :=
  {| files := [(str_lit "avatar", zero_byte_photo);
               (str_lit "files", notes_file)];
     is_json := false;
     json := None;
     form := [] |}.

(** ** [werkzeug.utils.secure_filename]

    The library function the code imports (line 9), as it runs on a
    POSIX system: [os.sep] is [/], there is no [os.path.altsep], and the
    check of the Windows device names is skipped.
    <<
    filename = unicodedata.normalize("NFKD", filename)
    filename = filename.encode("ascii", "ignore").decode("ascii")
    for sep in os.sep, os.path.altsep:
        if sep:
            filename = filename.replace(sep, " ")
    filename = str(_filename_ascii_strip_re.sub(
        "", "_".join(filename.split()))).strip("._")
    >>
    The normalisation needs the Unicode tables and is the parameter
    [normalize]. *)

(** [filename.encode("ascii", "ignore").decode("ascii")] *)
Definition ascii_only (s : pystr) : pystr :=
  filter (fun c => c <? 128) s.

(** [filename.replace("/", " ")] *)
Definition replace_sep (s : pystr) : pystr :=
  map (fun c => if c =? 47 then 32 else c) s.

(** [filename.split()]: the maximal runs without whitespace; [word] is
    the run being read. *)
Fixpoint split_from (word s : pystr) {struct s} : list pystr :=
  match s with
  | [] => if str_truthy word then [word] else []
  | c :: s' =>
      if is_space c then
        if str_truthy word then word :: split_from [] s'
        else split_from [] s'
      else split_from (word ++ [c]) s'
  end.

Definition split_whitespace (s : pystr) : list pystr := split_from [] s.

(** ["_".join(words)] *)
Fixpoint join_underscore (words : list pystr) : pystr :=
  match words with
  | [] => []
  | w :: ws =>
      match ws with
      | [] => w
      | _ :: _ => w ++ 95 :: join_underscore ws
      end
  end.

(** The characters [_filename_ascii_strip_re], [[^A-Za-z0-9_.-]], keeps. *)
Definition filename_char (c : Z) : bool :=
  ((65 <=? c) && (c <=? 90)) || ((97 <=? c) && (c <=? 122))
  || ((48 <=? c) && (c <=? 57))
  || (c =? 95) || (c =? 46) || (c =? 45).

Definition dot_or_underscore (c : Z) : bool := (c =? 46) || (c =? 95).

Fixpoint lstrip_chars (strip_char : Z -> bool) (s : pystr) : pystr :=
  match s with
  | c :: s' => if strip_char c then lstrip_chars strip_char s' else s
  | [] => []
  end.

(** [s.strip("._")] *)
Definition strip_dots (s : pystr) : pystr :=
  rev (lstrip_chars dot_or_underscore
         (rev (lstrip_chars dot_or_underscore s))).

Definition werkzeug_secure_filename (normalize : pystr -> pystr)
    (filename : pystr) : string :=
  let filename := normalize filename in
  let filename := ascii_only filename in
  let filename := replace_sep filename in
  let filename :=
    strip_dots
      (filter filename_char (join_underscore (split_whitespace filename))) in
  string_of_list_ascii (map (fun c => ascii_of_N (Z.to_N c)) filename).

(** The normalisation of the examples: their names are made of ASCII
    characters and of the Cyrillic letters U+0435, U+043E, U+0442, U+0444
    and U+0447, none of which has a decomposition, so that NFKD leaves
    them as they are. *)
Definition no_decomposition (s : pystr) : pystr := s.

(** A photo named with a Cyrillic stem and the extension [.png]. *)
Definition cyrillic_photo : FileStorage :=
  {| filename := [1092; 1086; 1090; 1086] ++ str_lit ".png";
     content := bytes_lit "PNG" |}.

(** A report named with a Cyrillic stem and the extension [.pdf], with
    the content of [three_page_report]. *)
Definition cyrillic_report : FileStorage :=
  {| filename := [1086; 1090; 1095; 1077; 1090] ++ str_lit ".pdf";
     content := content three_page_report |}.

(* ================================================================== *)
(** * Properties of the string functions *)

Lemma lstrip_decompose (s : pystr) :
  exists l, s = l ++ lstrip s /\ forallb is_space l = true.
Proof.
  induction s as [|c s IH]; simpl.
  - exists []; auto.
  - destruct (is_space c) eqn:Hc.
    + destruct IH as (l & Hl & Hsp).
      exists (c :: l); simpl; rewrite Hc, Hsp; split; [congruence | reflexivity].
    + exists []; auto.
Qed.

Lemma lstrip_head (s : pystr) (c : Z) (t : pystr) :
  lstrip s = c :: t -> is_space c = false.
Proof.
  induction s as [|d s IH]; simpl; [discriminate|].
  destruct (is_space d) eqn:Hd; [exact IH|].
  intros H; injection H as -> _; exact Hd.
Qed.

Lemma lstrip_fixed (s : pystr) (c : Z) :
  is_space c = false -> lstrip (c :: s) = c :: s.
Proof. intros H; simpl; now rewrite H. Qed.

Lemma lstrip_app_nonspace (s t : pystr) (c : Z) :
  is_space c = false -> lstrip (s ++ c :: t) = lstrip s ++ c :: t.
Proof.
  intros Hc; induction s as [|d s IH]; simpl.
  - now rewrite Hc.
  - destruct (is_space d); [exact IH | reflexivity].
Qed.

Lemma forallb_rev {A : Type} (f : A -> bool) (l : list A) :
  forallb f (rev l) = forallb f l.
Proof.
  induction l as [|a l IH]; simpl; [reflexivity|].
  rewrite forallb_app, IH; simpl; rewrite andb_true_r; apply andb_comm.
Qed.

(** [strip] removes whitespace at both ends and nothing else. *)
Lemma strip_decompose (s : pystr) :
  exists l r,
    s = l ++ strip s ++ r
    /\ forallb is_space l = true /\ forallb is_space r = true.
Proof.
  destruct (lstrip_decompose s) as (l & Hl & Hlsp).
  destruct (lstrip_decompose (rev (lstrip s))) as (r & Hr & Hrsp).
  exists l, (rev r); repeat split; trivial.
  - unfold strip, rstrip.
    rewrite <- rev_app_distr, <- Hr, rev_involutive; exact Hl.
  - now rewrite forallb_rev.
Qed.

Lemma strip_no_leading_space (s : pystr) (c : Z) (t : pystr) :
  strip s = c :: t -> is_space c = false.
Proof.
  unfold strip, rstrip; intros H.
  destruct (lstrip s) as [|d u] eqn:Hd; [discriminate H|].
  pose proof (lstrip_head _ _ _ Hd) as Hsp.
  replace (rev (d :: u)) with (rev u ++ [d]) in H by reflexivity.
  rewrite (lstrip_app_nonspace _ [] _ Hsp), rev_app_distr in H.
  simpl in H; injection H as -> _; exact Hsp.
Qed.

Lemma strip_no_trailing_space (s : pystr) (c : Z) (t : pystr) :
  strip s = t ++ [c] -> is_space c = false.
Proof.
  unfold strip, rstrip; intros H.
  apply (f_equal (@rev Z)) in H.
  rewrite rev_involutive, rev_app_distr in H; simpl in H.
  exact (lstrip_head _ _ _ H).
Qed.

Lemma len_nonneg {A : Type} (l : list A) : 0 <= len l.
Proof. unfold len; lia. Qed.

(** ** File-name suffixes *)

Lemma endswith_refl (suffix : string) : endswith suffix suffix = true.
Proof. destruct suffix; simpl; now rewrite ?Ascii.eqb_refl, ?String.eqb_refl. Qed.

Lemma endswith_length (name suffix : string) :
  endswith name suffix = true -> (String.length suffix <= String.length name)%nat.
Proof.
  induction name as [|c name IH]; cbn [endswith].
  - rewrite orb_false_r; intros H; apply String.eqb_eq in H; subst; simpl; lia.
  - intros H; apply orb_true_iff in H; destruct H as [H | H].
    + apply String.eqb_eq in H; subst; simpl; lia.
    + specialize (IH H); simpl; lia.
Qed.

(** A name that ends in [.pdf] ends in none of the image extensions. *)
Lemma endswith_pdf_not_image (name : string) :
  endswith name ".pdf" = true ->
  existsb (endswith name) image_extensions = false.
Proof.
  induction name as [|c name IH]; [discriminate|].
  intros H; cbn [endswith] in H.
  apply orb_true_iff in H; destruct H as [H | H].
  - apply String.eqb_eq in H; rewrite H; reflexivity.
  - specialize (IH H).
    assert (Hext : forall ext, In ext image_extensions ->
                   endswith (String c name) ext = endswith name ext).
    { intros ext Hin; cbn [endswith].
      destruct (String.eqb (String c name) ext) eqn:E; [|reflexivity].
      apply String.eqb_eq in E; exfalso.
      simpl in Hin.
      repeat (destruct Hin as [<- | Hin];
              [injection E as _ ->; vm_compute in H; discriminate H|]).
      exact Hin. }
    unfold image_extensions in *; cbn [existsb] in *.
    rewrite !Hext by (simpl; tauto). exact IH.
Qed.

(** ** Counting a byte pattern *)

Lemma starts_with_iff (pat s : bytes) :
  starts_with pat s = true <-> exists t, s = pat ++ t.
Proof.
  revert s; induction pat as [|p pat IH]; intros s; simpl.
  - split; [intros _; now exists s | trivial].
  - destruct s as [|c s].
    + split; [discriminate | intros (t & Ht); discriminate Ht].
    + rewrite andb_true_iff, IH; split.
      * intros (Hpc & t & ->); apply byte_dec_bl in Hpc; subst; now exists t.
      * intros (t & Ht); injection Ht as -> ->; split;
          [now apply byte_dec_lb | now exists t].
Qed.

Lemma occurrences_nonneg (pat s : bytes) : 0 <= occurrences pat s.
Proof.
  induction s as [|c s IH]; cbn [occurrences]; [lia|].
  destruct (starts_with pat (c :: s)); lia.
Qed.

(** No occurrence of [/Page] starts inside another one, so the scan of
    [bytes.count] finds every occurrence. *)
Lemma count_scan_slash_Page (s : bytes) :
  count_scan slash_Page s 0 = occurrences slash_Page s.
Proof.
  remember (List.length s) as n eqn:Hn.
  revert s Hn; induction n as [n IH] using lt_wf_ind; intros s Hn.
  destruct s as [|c s]; [reflexivity|].
  cbn [count_scan occurrences].
  destruct (starts_with slash_Page (c :: s)) eqn:Hm.
  - apply starts_with_iff in Hm; destruct Hm as (t & Ht).
    unfold slash_Page in Ht; simpl in Ht; injection Ht as -> ->.
    change (count_scan slash_Page (x50 :: x61 :: x67 :: x65 :: t)
              (Nat.pred (List.length slash_Page)))
      with (count_scan slash_Page t 0).
    change (occurrences slash_Page (x50 :: x61 :: x67 :: x65 :: t))
      with (0 + (0 + (0 + (0 + occurrences slash_Page t)))).
    rewrite (IH (List.length t)) by (simpl in Hn; subst n; simpl; lia || reflexivity).
    lia.
  - rewrite (IH (List.length s)) by (simpl in Hn; subst n; simpl; lia || reflexivity).
    lia.
Qed.

Lemma bytes_count_slash_Page (s : bytes) :
  bytes_count s slash_Page = occurrences slash_Page s.
Proof. exact (count_scan_slash_Page s). Qed.

Lemma count_pdf_pages_bytes (b : bytes) :
  count_pdf_pages (BytesObj b) = Z.max 1 (occurrences slash_Page b).
Proof.
  unfold count_pdf_pages, count_method, bind.
  now rewrite bytes_count_slash_Page.
Qed.

Lemma count_pdf_pages_positive (c : file_content) : 1 <= count_pdf_pages c.
Proof.
  destruct c as [b|]; [rewrite count_pdf_pages_bytes; lia | cbn; lia].
Qed.

(* ================================================================== *)
(** * Properties of the token estimators *)

(** C6.  [estimate_text_tokens] returns 0 for an absent ([None]) or empty
    text; for a non-empty text it returns [max(1, L // 4)] where [L] is
    the length of the text trimmed by [strip], that is the text without
    its leading and trailing whitespace; and [estimate_text_tokens("ab")]
    is 1. *)
Theorem estimate_text_tokens_correct :
  estimate_text_tokens PyNone = Ok 0
  /\ estimate_text_tokens (PyStr []) = Ok 0
  /\ (forall c text,
        estimate_text_tokens (PyStr (c :: text))
        = Ok (Z.max 1 (len (strip (c :: text)) / 4)))
  /\ (forall text, exists l r,
        text = l ++ strip text ++ r
        /\ forallb is_space l = true /\ forallb is_space r = true
        /\ (forall d t, strip text = d :: t -> is_space d = false)
        /\ (forall d t, strip text = t ++ [d] -> is_space d = false))
  /\ estimate_text_tokens (PyStr (str_lit "ab")) = Ok 1.
Proof.
  repeat split; try reflexivity.
  intros text.
  destruct (strip_decompose text) as (l & r & H & Hl & Hr).
  exists l, r; repeat split; trivial.
  - apply strip_no_leading_space.
  - apply strip_no_trailing_space.
Qed.

Lemma estimate_text_tokens_str (s : pystr) :
  exists n, estimate_text_tokens (PyStr s) = Ok n /\ 0 <= n
            /\ (s <> [] -> 1 <= n).
Proof.
  destruct s as [|c s].
  - exists 0; repeat split; [lia | congruence].
  - exists (Z.max 1 (len (strip (c :: s)) / 4)); repeat split; lia.
Qed.

Section FileProperties.

Variable secure_filename : pystr -> string.

Lemma process_file_contribution (acc : Breakdown) (file : FileStorage) :
  process_file secure_filename acc file
  = breakdown_add acc (process_file secure_filename no_tokens file).
Proof.
  unfold process_file, breakdown_add.
  destruct (existsb _ image_extensions); [cbn; f_equal; lia|].
  destruct (endswith _ ".pdf"); [cbn; f_equal; lia|].
  destruct (endswith _ ".txt").
  - cbn [text_tokens image_tokens document_tokens no_tokens].
    destruct (match utf8_decode (content file) with
              | Some text => estimate_text_tokens (PyStr text)
              | None => Raise UnicodeDecodeError
              end); f_equal; lia.
  - destruct acc; cbn; f_equal; lia.
Qed.

Lemma breakdown_add_assoc (a b c : Breakdown) :
  breakdown_add (breakdown_add a b) c = breakdown_add a (breakdown_add b c).
Proof. unfold breakdown_add; cbn; f_equal; lia. Qed.

Lemma breakdown_add_no_tokens_r (a : Breakdown) : breakdown_add a no_tokens = a.
Proof. destruct a; unfold breakdown_add; cbn; f_equal; lia. Qed.

Lemma breakdown_add_no_tokens_l (a : Breakdown) : breakdown_add no_tokens a = a.
Proof. destruct a; unfold breakdown_add; cbn; f_equal; lia. Qed.

Lemma fold_process_file (files : list FileStorage) (acc : Breakdown) :
  fold_left (process_file secure_filename) files acc
  = breakdown_add acc (process_files secure_filename files).
Proof.
  unfold process_files.
  revert acc; induction files as [|f files IH]; intros acc; simpl.
  - now rewrite breakdown_add_no_tokens_r.
  - rewrite IH, (IH (process_file _ no_tokens f)).
    rewrite (process_file_contribution acc f).
    apply breakdown_add_assoc.
Qed.

Lemma process_files_app (fs1 fs2 : list FileStorage) :
  process_files secure_filename (fs1 ++ fs2)
  = breakdown_add (process_files secure_filename fs1)
                  (process_files secure_filename fs2).
Proof.
  unfold process_files at 1.
  rewrite fold_left_app.
  fold (process_files secure_filename fs1).
  apply fold_process_file.
Qed.

Lemma process_files_single (f : FileStorage) :
  process_files secure_filename [f] = process_file secure_filename no_tokens f.
Proof. reflexivity. Qed.

(** C7.  A file whose lower-cased, sanitised name ends in one of [.jpg],
    [.jpeg], [.png], [.gif], [.webp] adds exactly 1600 image tokens and
    nothing else, whatever its bytes are, a zero-byte file included. *)
Theorem image_file_tokens (file : FileStorage) (ext : string) :
  In ext image_extensions ->
  endswith (tested_name secure_filename file) ext = true ->
  (forall acc,
     process_file secure_filename acc file
     = {| text_tokens := text_tokens acc;
          image_tokens := image_tokens acc + 1600;
          document_tokens := document_tokens acc |})
  /\ (forall bytes',
        process_files secure_filename
          [ {| filename := filename file; content := bytes' |} ]
        = {| text_tokens := 0; image_tokens := 1600; document_tokens := 0 |})
  /\ process_files secure_filename
       [ {| filename := filename file; content := [] |} ]
     = {| text_tokens := 0; image_tokens := 1600; document_tokens := 0 |}.
Proof.
  intros Hin Hend.
  assert (Himg : existsb (endswith (tested_name secure_filename file))
                   image_extensions = true).
  { apply existsb_exists; now exists ext. }
  assert (H : forall bytes' acc,
            process_file secure_filename acc
              {| filename := filename file; content := bytes' |}
            = {| text_tokens := text_tokens acc;
                 image_tokens := image_tokens acc + 1600;
                 document_tokens := document_tokens acc |}).
  { intros bytes' acc; unfold process_file; cbn [filename content].
    unfold tested_name in Himg; now rewrite Himg. }
  repeat split.
  - intros acc. destruct file as [fname fcontent]; apply H.
  - intros bytes'. rewrite process_files_single. apply H.
  - rewrite process_files_single. apply H.
Qed.

(** C5.  A file whose lower-cased, sanitised name ends in [.pdf] adds
    [max(1, occurrences of /Page in its bytes) * 500] document tokens and
    nothing else: 1500 for three occurrences, 500 for none.  A scan that
    raises is answered inside [count_pdf_pages] by one page, so the
    function always returns a page count of at least 1. *)
Theorem pdf_document_tokens (file : FileStorage) :
  endswith (tested_name secure_filename file) ".pdf" = true ->
  (forall acc,
     process_file secure_filename acc file
     = {| text_tokens := text_tokens acc;
          image_tokens := image_tokens acc;
          document_tokens :=
            document_tokens acc
            + Z.max 1 (occurrences slash_Page (content file)) * 500 |})
  /\ (occurrences slash_Page (content file) = 3 ->
      process_files secure_filename [file]
      = {| text_tokens := 0; image_tokens := 0; document_tokens := 1500 |})
  /\ (occurrences slash_Page (content file) = 0 ->
      process_files secure_filename [file]
      = {| text_tokens := 0; image_tokens := 0; document_tokens := 500 |})
  /\ (forall c e, count_method c slash_Page = Raise e -> count_pdf_pages c = 1)
  /\ count_pdf_pages NoCount = 1
  /\ (forall c, 1 <= count_pdf_pages c).
Proof.
  intros Hend.
  assert (H : forall acc,
            process_file secure_filename acc file
            = {| text_tokens := text_tokens acc;
                 image_tokens := image_tokens acc;
                 document_tokens :=
                   document_tokens acc
                   + Z.max 1 (occurrences slash_Page (content file)) * 500 |}).
  { intros acc; unfold process_file.
    unfold tested_name in Hend.
    rewrite (endswith_pdf_not_image _ Hend), Hend, count_pdf_pages_bytes.
    reflexivity. }
  repeat split.
  - exact H.
  - intros H3; rewrite process_files_single, H, H3; reflexivity.
  - intros H0; rewrite process_files_single, H, H0; reflexivity.
  - intros c e Hc; unfold count_pdf_pages; now rewrite Hc.
  - apply count_pdf_pages_positive.
Qed.

End FileProperties.

(* ================================================================== *)
(** * Properties of the request handler *)

Section HandlerProperties.

Variable secure_filename : pystr -> string.
Variable exn_str : exn -> string.

Lemma valid_files_filter (fs : list FileStorage) :
  valid_files fs = filter (fun f => str_truthy (filename f)) fs.
Proof.
  unfold valid_files, FileStorage_bool.
  apply filter_ext; intros f; now destruct (str_truthy (filename f)).
Qed.


Lemma valid_files_named (f : FileStorage) (fs : list FileStorage) :
  In f (valid_files fs) -> filename f <> [].
Proof.
  rewrite valid_files_filter, filter_In; intros (_ & H) E.
  now rewrite E in H.
Qed.

Lemma getlist_app {V : Type} (key : pystr) (a b : list (pystr * V)) :
  getlist key (a ++ b) = getlist key a ++ getlist key b.
Proof. unfold getlist; now rewrite filter_app, map_app. Qed.

Lemma getlist_no_key {V : Type} (key : pystr) (items : list (pystr * V)) :
  has_key key items = false -> getlist key items = [].
Proof.
  unfold has_key, getlist; induction items as [|kv items IH]; simpl; trivial.
  destruct (str_eqb (fst kv) key); [discriminate | exact IH].
Qed.

Lemma files_breakdown_valid_files (request : Request) :
  files_breakdown secure_filename request
  = process_files secure_filename
      (valid_files (getlist (str_lit "files") (files request))).
Proof.
  unfold files_breakdown.
  destruct (files request) as [|kv items] eqn:Hf; [reflexivity|].
  cbn [nonempty andb].
  destruct (has_key (str_lit "files") (kv :: items)) eqn:Hk.
  - destruct (valid_files (getlist (str_lit "files") (kv :: items)));
      reflexivity.
  - now rewrite (getlist_no_key _ _ Hk).
Qed.

Lemma process_file_nonneg (acc : Breakdown) (file : FileStorage) :
  nonneg_breakdown acc ->
  nonneg_breakdown (process_file secure_filename acc file).
Proof.
  unfold nonneg_breakdown, process_file; intros (Ht & Hi & Hd).
  destruct (existsb _ image_extensions); [cbn; lia|].
  destruct (endswith _ ".pdf").
  { pose proof (count_pdf_pages_positive (BytesObj (content file))).
    cbn [text_tokens image_tokens document_tokens]; nia. }
  destruct (endswith _ ".txt"); [|tauto].
  cbn [text_tokens image_tokens document_tokens].
  repeat split; trivial.
  destruct (utf8_decode (content file)) as [text|].
  - destruct (estimate_text_tokens_str text) as (n & -> & Hn & _); lia.
  - pose proof (len_nonneg (content file)).
    assert (0 <= len (content file) / 4) by (apply Z.div_pos; lia). lia.
Qed.

Lemma process_files_nonneg (fs : list FileStorage) :
  nonneg_breakdown (process_files secure_filename fs).
Proof.
  unfold process_files.
  assert (H : nonneg_breakdown no_tokens) by (cbv; intuition discriminate).
  revert H; generalize no_tokens.
  induction fs as [|f fs IH]; intros acc Hacc; simpl; trivial.
  apply IH, process_file_nonneg, Hacc.
Qed.

Lemma files_breakdown_nonneg (request : Request) :
  nonneg_breakdown (files_breakdown secure_filename request).
Proof. rewrite files_breakdown_valid_files; apply process_files_nonneg. Qed.

(** What [text_input_step] does, by the text that was supplied. *)
Lemma text_input_step_cases (request : Request) (b b' : Breakdown) :
  text_input_step request b = Ok b' ->
  b' = b
  \/ exists s n,
       s <> [] /\ estimate_text_tokens (PyStr s) = Ok n
       /\ b' = set_text_tokens b n
       /\ ((is_json request = true
            /\ exists items,
                 json request = Some (PyDict items)
                 /\ lookup (str_lit "text_input") items = Some (PyStr s))
           \/ (is_json request = false
               /\ lookup (str_lit "text_input") (form request) = Some s)).
Proof.
  unfold text_input_step, request_json, py_get.
  destruct (is_json request) eqn:Hj.
  - destruct (json request) as [data|]; [|discriminate].
    destruct data as [| | | |items|items]; try discriminate.
    cbn [bind].
    destruct (lookup (str_lit "text_input") items) as [v|] eqn:Hl.
    + destruct (truthy v) eqn:Htv.
      * destruct v as [|b0|nz|s|l|d];
          try discriminate Htv;
          try (unfold estimate_text_tokens; rewrite Htv; cbn; discriminate).
        destruct (estimate_text_tokens_str s) as (n & Hn & _).
        rewrite Hn; cbn [bind]; intros [= <-].
        right; exists s, n; repeat split; trivial.
        -- intros ->; discriminate Htv.
        -- left; split; trivial. now exists items.
      * intros [= <-]; now left.
    + cbn; intros [= <-]; now left.
  - destruct (nonempty (form request)); [|intros [= <-]; now left].
    destruct (lookup (str_lit "text_input") (form request)) as [s|] eqn:Hl.
    + destruct (str_truthy s) eqn:Hs.
      * destruct (estimate_text_tokens_str s) as (n & Hn & _).
        rewrite Hn; cbn [bind]; intros [= <-].
        right; exists s, n; repeat split; trivial.
        -- intros ->; discriminate Hs.
        -- now right.
      * intros [= <-]; now left.
    + cbn; intros [= <-]; now left.
Qed.

Lemma lookup_nonempty {V : Type} (key : pystr) (items : list (pystr * V)) (v : V) :
  lookup key items = Some v -> nonempty items = true.
Proof. destruct items; [discriminate | reflexivity]. Qed.

Lemma request_breakdown_nonneg (request : Request) (b : Breakdown) :
  request_breakdown secure_filename request = Ok b -> nonneg_breakdown b.
Proof.
  unfold request_breakdown; intros H.
  pose proof (files_breakdown_nonneg request) as Hf.
  destruct (text_input_step_cases _ _ _ H) as [-> | (s & n & _ & Hn & -> & _)];
    trivial.
  destruct (estimate_text_tokens_str s) as (n' & Hn' & Hpos & _).
  rewrite Hn in Hn'; injection Hn' as <-.
  unfold nonneg_breakdown in *; cbn; tauto.
Qed.


Lemma respond_positive (breakdown : Breakdown) :
  0 < total_tokens breakdown ->
  (exists output_tokens cost,
     respond breakdown
     = Ok (success (total_tokens breakdown) output_tokens breakdown cost))
  \/ (exists e, respond breakdown = Raise e).
Proof.
  intros Hpos; unfold respond.
  destruct (Z.eqb_spec (total_tokens breakdown) 0) as [E | _]; [lia|].
  destruct (estimate_output_tokens (total_tokens breakdown)) as [o | e];
    cbn [bind]; [|right; now exists e].
  destruct (calculate_cost (total_tokens breakdown) o) as [c | e];
    cbn [bind]; [left; now exists o, c | right; now exists e].
Qed.

(** C3.  When the three categories of the request's breakdown sum to 0,
    the handler answers with status 400 and the body
    [{success: false, error: "Please enter a prompt or upload files"}],
    which has no token and no cost field; when the sum is positive (it is
    never negative) the answer is not that one: its status is 200 or
    500. *)
Theorem zero_total_is_validation_failure (request : Request) (breakdown : Breakdown) :
  request_breakdown secure_filename request = Ok breakdown ->
  0 <= total_tokens breakdown
  /\ (total_tokens breakdown = 0 ->
      calculate secure_filename exn_str request
      = {| status := 400;
           body := JObj [("success", JBool false);
                         ("error",
                          JStr "Please enter a prompt or upload files")]%string |})
  /\ (0 < total_tokens breakdown ->
      calculate secure_filename exn_str request <> validation_failure
      /\ (status (calculate secure_filename exn_str request) = 200
          \/ status (calculate secure_filename exn_str request) = 500)).
Proof.
  intros Hb.
  pose proof (request_breakdown_nonneg _ _ Hb) as (Ht & Hi & Hd).
  split; [unfold total_tokens; lia|].
  unfold calculate; rewrite Hb; cbn [bind].
  split.
  - intros H0; unfold respond; now rewrite H0.
  - intros Hpos.
    destruct (respond_positive _ Hpos) as [(o & c & ->) | (e & ->)];
      (split; [discriminate | cbn; auto]).
Qed.

(** C4.  A non-empty text string supplied as [text_input], in the JSON
    body or in the form, sets [text_tokens] to
    [estimate_text_tokens(text_input)] in place of what the uploaded
    files gave; [image_tokens] and [document_tokens] stay as the files
    gave them. *)
Theorem text_input_replaces_text_tokens (request : Request) (s : pystr) :
  s <> [] ->
  (is_json request = true
   /\ exists items,
        json request = Some (PyDict items)
        /\ lookup (str_lit "text_input") items = Some (PyStr s))
  \/ (is_json request = false
      /\ lookup (str_lit "text_input") (form request) = Some s) ->
  exists n,
    estimate_text_tokens (PyStr s) = Ok n
    /\ n = Z.max 1 (len (strip s) / 4)
    /\ request_breakdown secure_filename request
       = Ok {| text_tokens := n;
               image_tokens :=
                 image_tokens (files_breakdown secure_filename request);
               document_tokens :=
                 document_tokens (files_breakdown secure_filename request) |}.
Proof.
  intros Hs Hsup.
  destruct s as [|c s]; [congruence|].
  exists (Z.max 1 (len (strip (c :: s)) / 4)).
  split; [reflexivity|]. split; [reflexivity|].
  unfold request_breakdown, text_input_step, request_json, py_get.
  destruct Hsup as [(Hj & items & Hjs & Hl) | (Hj & Hl)].
  - rewrite Hj, Hjs; cbn [bind]; rewrite Hl; reflexivity.
  - rewrite Hj, (lookup_nonempty _ _ _ Hl), Hl; reflexivity.
Qed.

(** C10.  A [text_input] that is present but is the empty string, in the
    JSON body or in the form, leaves the breakdown of the uploaded files
    as it is; and whenever the breakdown differs from that of the files,
    a non-empty [text_input] string was supplied and [text_tokens] is its
    estimate. *)
Theorem empty_text_input_keeps_file_tokens (request : Request) :
  ((is_json request = true
    /\ exists items,
         json request = Some (PyDict items)
         /\ lookup (str_lit "text_input") items = Some (PyStr []))
   \/ (is_json request = false
       /\ lookup (str_lit "text_input") (form request) = Some []) ->
   request_breakdown secure_filename request
   = Ok (files_breakdown secure_filename request))
  /\ (forall breakdown,
        request_breakdown secure_filename request = Ok breakdown ->
        breakdown = files_breakdown secure_filename request
        \/ exists s n,
             s <> [] /\ estimate_text_tokens (PyStr s) = Ok n
             /\ breakdown
                = set_text_tokens (files_breakdown secure_filename request) n
             /\ ((is_json request = true
                  /\ exists items,
                       json request = Some (PyDict items)
                       /\ lookup (str_lit "text_input") items = Some (PyStr s))
                 \/ (is_json request = false
                     /\ lookup (str_lit "text_input") (form request) = Some s))).
Proof.
  split.
  - unfold request_breakdown, text_input_step, request_json, py_get.
    intros [(Hj & items & Hjs & Hl) | (Hj & Hl)].
    + rewrite Hj, Hjs; cbn [bind]; rewrite Hl; reflexivity.
    + rewrite Hj, (lookup_nonempty _ _ _ Hl), Hl; reflexivity.
  - intros breakdown Hb. exact (text_input_step_cases _ _ _ Hb).
Qed.

End HandlerProperties.

(* ================================================================== *)
(** * Properties of the float model *)

Import PyFloat.

(** ** Nearest-integer division *)

Lemma rne_div_error (a b : Z) :
  0 < b -> - b <= 2 * (a - rne_div a b * b) <= b.
Proof.
  intros Hb; unfold rne_div.
  pose proof (Z.div_mod a b ltac:(lia)) as Hdm.
  pose proof (Z.mod_pos_bound a b Hb) as Hm.
  destruct (Z.compare_spec (2 * (a mod b)) b) as [E | L | G].
  - destruct (Z.even (a / b)); nia.
  - nia.
  - nia.
Qed.

Lemma rne_div_unique (a b k : Z) :
  0 < b -> - b < 2 * (a - k * b) < b -> rne_div a b = k.
Proof.
  intros Hb Hk.
  pose proof (rne_div_error a b Hb) as He.
  nia.
Qed.

Lemma rne_div_exact (k b : Z) : 0 < b -> rne_div (k * b) b = k.
Proof. intros Hb; apply rne_div_unique; [assumption | nia]. Qed.

Lemma rne_div_le (a b B : Z) : 0 < b -> a <= B * b -> rne_div a b <= B.
Proof.
  intros Hb HB.
  destruct (Z.eq_dec a (B * b)) as [-> | Hne].
  - rewrite rne_div_exact by assumption; lia.
  - pose proof (rne_div_error a b Hb). nia.
Qed.

Lemma rne_div_ge (a b A : Z) : 0 < b -> A * b <= a -> A <= rne_div a b.
Proof.
  intros Hb HA.
  destruct (Z.eq_dec a (A * b)) as [-> | Hne].
  - rewrite rne_div_exact by assumption; lia.
  - pose proof (rne_div_error a b Hb). nia.
Qed.

Lemma rne_div_scale (c a b : Z) :
  0 < c -> 0 < b -> rne_div (c * a) (c * b) = rne_div a b.
Proof.
  intros Hc Hb; unfold rne_div.
  rewrite Z.div_mul_cancel_l, Z.mul_mod_distr_l by lia.
  replace (2 * (c * (a mod b))) with (c * (2 * (a mod b))) by ring.
  rewrite <- (Zmult_compare_compat_l (2 * (a mod b)) b c) by lia.
  reflexivity.
Qed.

Lemma rne_div_ratio (a b a' b' : Z) :
  0 < b -> 0 < b' -> a * b' = a' * b -> rne_div a b = rne_div a' b'.
Proof.
  intros Hb Hb' E.
  rewrite <- (rne_div_scale b' a b), <- (rne_div_scale b a' b') by assumption.
  f_equal; lia.
Qed.

(** ** Powers of two over the reals *)

Lemma bpow_pos (e : Z) : (0 < bpow e)%R.
Proof. apply powerRZ_lt; lra. Qed.

Lemma bpow_add (a b : Z) : bpow (a + b) = (bpow a * bpow b)%R.
Proof. apply powerRZ_add; lra. Qed.

Lemma bpow_0 : bpow 0 = 1%R.
Proof. reflexivity. Qed.

Lemma bpow_opp (e : Z) : (bpow (- e) * bpow e = 1)%R.
Proof. rewrite <- bpow_add. replace (- e + e) with 0 by lia. apply bpow_0. Qed.

Lemma IZR_pow2 (n : Z) : 0 <= n -> IZR (2 ^ n) = bpow n.
Proof.
  intros Hn; unfold bpow.
  rewrite <- (Z2Nat.id n Hn) at 1.
  rewrite <- pow_IZR, pow_powerRZ, Z2Nat.id by assumption.
  reflexivity.
Qed.

Lemma bpow_ge_1 (n : Z) : 0 <= n -> (1 <= bpow n)%R.
Proof.
  intros Hn; rewrite <- IZR_pow2 by assumption.
  apply IZR_le. pose proof (Z.pow_pos_nonneg 2 n ltac:(lia) Hn). lia.
Qed.

Lemma bpow_le (a b : Z) : a <= b -> (bpow a <= bpow b)%R.
Proof.
  intros Hab. replace b with (a + (b - a)) by lia. rewrite bpow_add.
  pose proof (bpow_pos a). pose proof (bpow_ge_1 (b - a) ltac:(lia)). nra.
Qed.

Lemma bpow_lt (a b : Z) : a < b -> (bpow a < bpow b)%R.
Proof.
  intros Hab. replace b with (a + 1 + (b - a - 1)) by lia.
  rewrite !bpow_add.
  pose proof (bpow_pos a). pose proof (bpow_ge_1 (b - a - 1) ltac:(lia)).
  assert (E : bpow 1 = 2%R) by (unfold bpow; simpl; lra).
  rewrite E. nra.
Qed.

Lemma bpow_lt_inv (a b : Z) : (bpow a < bpow b)%R -> a < b.
Proof.
  intros H. destruct (Z_lt_le_dec a b) as [L | G]; [assumption|].
  pose proof (bpow_le b a G). lra.
Qed.

(** ** The scaled fraction *)

Lemma pow2_max_pos (e : Z) : 0 < 2 ^ Z.max 0 e.
Proof. apply Z.pow_pos_nonneg; lia. Qed.

Lemma scaled_den_pos (q e : Z) : 0 < q -> 0 < scaled_den q e.
Proof. intros Hq; unfold scaled_den. pose proof (pow2_max_pos e). nia. Qed.

Lemma scaled_num_pos (p e : Z) : 0 < p -> 0 < scaled_num p e.
Proof. intros Hp; unfold scaled_num. pose proof (pow2_max_pos (- e)). nia. Qed.

Lemma scaled_num_nonneg (p e : Z) : 0 <= p -> 0 <= scaled_num p e.
Proof. intros Hp; unfold scaled_num. pose proof (pow2_max_pos (- e)). nia. Qed.

(** [scaled_num p e / scaled_den q e] is [p / q * 2^(-e)]. *)
Lemma scaled_ratio (p q e : Z) :
  (IZR (scaled_num p e) * IZR q * bpow e = IZR p * IZR (scaled_den q e))%R.
Proof.
  unfold scaled_num, scaled_den.
  rewrite !mult_IZR, !IZR_pow2 by lia.
  assert (H : (bpow (Z.max 0 (- e)) * bpow e = bpow (Z.max 0 e))%R).
  { rewrite <- bpow_add. f_equal. lia. }
  rewrite <- H. ring.
Qed.

Lemma scaled_R (e : Z) :
  exists A : R,
    (0 < A)%R
    /\ (forall p, IZR (scaled_num p e) = IZR p * A)%R
    /\ (forall q, IZR (scaled_den q e) = IZR q * bpow e * A)%R.
Proof.
  exists (bpow (Z.max 0 (- e))); repeat split.
  - apply bpow_pos.
  - intros p; unfold scaled_num. now rewrite mult_IZR, IZR_pow2 by lia.
  - intros q; unfold scaled_den. rewrite mult_IZR, IZR_pow2 by lia.
    rewrite Rmult_assoc, <- bpow_add. do 2 f_equal. lia.
Qed.

Lemma scaled_lt_iff (p q e : Z) :
  scaled_num p e < scaled_den q e <-> (IZR p < IZR q * bpow e)%R.
Proof.
  destruct (scaled_R e) as (A & HA & Hn & Hd).
  split; intros H.
  - apply IZR_lt in H. rewrite Hn, Hd in H. nra.
  - apply lt_IZR. rewrite Hn, Hd. nra.
Qed.

Lemma scaled_le_iff (p q e : Z) :
  scaled_den q e <= scaled_num p e <-> (IZR q * bpow e <= IZR p)%R.
Proof.
  destruct (scaled_R e) as (A & HA & Hn & Hd).
  split; intros H.
  - apply IZR_le in H. rewrite Hn, Hd in H. nra.
  - apply le_IZR. rewrite Hn, Hd. nra.
Qed.

Lemma log2_R (p : Z) :
  0 < p -> (bpow (Z.log2 p) <= IZR p < bpow (Z.log2 p + 1))%R.
Proof.
  intros Hp. pose proof (Z.log2_spec p Hp) as (Hlo & Hhi).
  pose proof (Z.log2_nonneg p).
  rewrite <- !IZR_pow2 by lia.
  split; [apply IZR_le | apply IZR_lt]; [assumption|].
  now rewrite <- Z.add_1_r in Hhi.
Qed.

(** [ilog2_frac p q] is the integer part of the binary logarithm of
    [p / q]. *)
Lemma ilog2_frac_spec (p q : Z) :
  0 < p -> 0 < q ->
  (IZR q * bpow (ilog2_frac p q) <= IZR p
   < IZR q * bpow (ilog2_frac p q + 1))%R.
Proof.
  intros Hp Hq. unfold ilog2_frac.
  pose proof (log2_R p Hp) as (Hp1 & Hp2).
  pose proof (log2_R q Hq) as (Hq1 & Hq2).
  set (a := Z.log2 p) in *. set (b := Z.log2 q) in *.
  assert (Hqpos : (0 < IZR q)%R) by (apply IZR_lt; assumption).
  pose proof (bpow_pos b) as Hb.
  assert (E1 : (bpow (a - b - 1) * bpow (b + 1) = bpow a)%R).
  { rewrite <- bpow_add. f_equal. lia. }
  assert (E2 : (bpow (a - b + 1) * bpow b = bpow (a + 1))%R).
  { rewrite <- bpow_add. f_equal. lia. }
  pose proof (bpow_pos (a - b - 1)). pose proof (bpow_pos (a - b + 1)).
  destruct (Z.ltb_spec (scaled_num p (a - b)) (scaled_den q (a - b))) as [L | G].
  - apply scaled_lt_iff in L.
    replace (a - b - 1 + 1) with (a - b) by lia.
    split; [nra | assumption].
  - apply scaled_le_iff in G.
    split; [assumption | nra].
Qed.

Lemma ilog2_frac_unique (p q k : Z) :
  0 < p -> 0 < q ->
  (IZR q * bpow k <= IZR p < IZR q * bpow (k + 1))%R ->
  ilog2_frac p q = k.
Proof.
  intros Hp Hq (Hlo & Hhi).
  pose proof (ilog2_frac_spec p q Hp Hq) as (Hlo' & Hhi').
  assert (Hqpos : (0 < IZR q)%R) by (apply IZR_lt; assumption).
  set (k' := ilog2_frac p q) in *.
  destruct (Z_lt_le_dec k' k) as [L | G].
  - pose proof (bpow_le (k' + 1) k ltac:(lia)). nra.
  - destruct (Z_lt_le_dec k k') as [L' | G']; [|lia].
    pose proof (bpow_le (k + 1) k' ltac:(lia)). nra.
Qed.

(** ** The rounding function *)

(** The significand and exponent [fl] computes before it renormalises. *)
Lemma fl_inv (p q : Z) :
  0 < p -> 0 < q ->
  exists m0 e0,
    e0 = Z.max (ilog2_frac p q - 52) emin
    /\ m0 = rne_div (scaled_num p e0) (scaled_den q e0)
    /\ 0 <= m0 <= 2 ^ 53
    /\ (emin < e0 -> 2 ^ 52 <= m0)
    /\ (- (bpow e0 / 2) <= IZR m0 * bpow e0 - IZR p / IZR q <= bpow e0 / 2)%R
    /\ fl p q = if m0 =? 2 ^ 53
                then (if emax <? e0 + 1 then Inf else Fin (2 ^ 52) (e0 + 1))
                else (if emax <? e0 then Inf else Fin m0 e0).
Proof.
  intros Hp Hq.
  set (e0 := Z.max (ilog2_frac p q - 52) emin).
  set (m0 := rne_div (scaled_num p e0) (scaled_den q e0)).
  exists m0, e0.
  pose proof (ilog2_frac_spec p q Hp Hq) as (Hlo & Hhi).
  set (k := ilog2_frac p q) in *.
  assert (Hqpos : (0 < IZR q)%R) by (apply IZR_lt; assumption).
  assert (Hppos : (0 < IZR p)%R) by (apply IZR_lt; assumption).
  destruct (scaled_R e0) as (A & HA & Hn & Hd).
  pose proof (scaled_den_pos q e0 Hq) as HQ.
  pose proof (scaled_num_pos p e0 Hp) as HP.
  pose proof (bpow_pos e0) as He0.
  assert (Hup : (IZR p <= IZR q * bpow e0 * IZR (2 ^ 53))%R).
  { rewrite IZR_pow2 by lia. rewrite Rmult_assoc, <- bpow_add.
    pose proof (bpow_le (k + 1) (e0 + 53) ltac:(lia)). nra. }
  assert (Herr : (- (bpow e0 / 2) <= IZR m0 * bpow e0 - IZR p / IZR q
                  <= bpow e0 / 2)%R).
  { pose proof (rne_div_error (scaled_num p e0) (scaled_den q e0) HQ) as (E1 & E2).
    fold m0 in E1, E2.
    apply IZR_le in E1, E2.
    rewrite opp_IZR in E1.
    rewrite mult_IZR, minus_IZR, mult_IZR, Hn, Hd in E1, E2.
    replace (IZR m0 * bpow e0 - IZR p / IZR q)%R
      with ((IZR m0 * (IZR q * bpow e0 * A) - IZR p * A) / (IZR q * A))%R
      by (field; lra).
    assert (HqA : (0 < IZR q * A)%R) by nra.
    split.
    - apply Rmult_le_reg_r with (IZR q * A)%R; [assumption|].
      unfold Rdiv at 2. rewrite Rmult_assoc, Rinv_l by lra. nra.
    - apply Rmult_le_reg_r with (IZR q * A)%R; [assumption|].
      unfold Rdiv at 1. rewrite Rmult_assoc, Rinv_l by lra. nra. }
  split; [reflexivity|]. split; [reflexivity|].
  split; [split|].
  - apply rne_div_ge; [assumption | lia].
  - apply rne_div_le; [assumption|].
    apply le_IZR. rewrite mult_IZR, Hn, Hd. nra.
  - split; [|split; [exact Herr|]].
    + intros Hnorm.
      assert (e0 = k - 52) as He by lia.
      apply rne_div_ge; [assumption|].
      apply le_IZR. rewrite mult_IZR, Hn, Hd, IZR_pow2 by lia.
      assert (E : (bpow 52 * bpow e0 = bpow k)%R).
      { rewrite <- bpow_add. f_equal. lia. }
      replace (bpow 52 * (IZR q * bpow e0 * A))%R
        with (IZR q * (bpow 52 * bpow e0) * A)%R by ring.
      rewrite E. apply Rmult_le_compat_r; lra.
    + unfold fl. destruct (Z.leb_spec p 0) as [L | _]; [lia|].
      fold k e0 m0.
      destruct (m0 =? 2 ^ 53); reflexivity.
Qed.

Lemma fl_canonical (p q : Z) : 0 < q -> canonical (fl p q).
Proof.
  intros Hq.
  destruct (Z_lt_le_dec 0 p) as [Hp | Hp].
  - destruct (fl_inv p q Hp Hq) as (m0 & e0 & He0 & _ & Hm & Hnorm & _ & ->).
    assert (emin <= e0) by lia.
    destruct (Z.eqb_spec m0 (2 ^ 53)) as [E | NE].
    + destruct (Z.ltb_spec emax (e0 + 1)); cbn; [trivial|]. lia.
    + destruct (Z.ltb_spec emax e0); cbn; [trivial|]. lia.
  - unfold fl. destruct (Z.leb_spec p 0); [|lia]. cbv; intuition discriminate.
Qed.

Lemma fl_finite (p q : Z) :
  0 < q -> p < q * overflow_threshold ->
  exists m e, fl p q = Fin m e /\ canonical (Fin m e).
Proof.
  intros Hq Hlt.
  assert (Hc := fl_canonical p q Hq).
  destruct (Z_lt_le_dec 0 p) as [Hp | Hp].
  - destruct (fl_inv p q Hp Hq) as (m0 & e0 & He0 & _ & Hm & Hnorm & Herr & Hfl).
    pose proof (ilog2_frac_spec p q Hp Hq) as (Hlo & Hhi).
    set (k := ilog2_frac p q) in *.
    assert (Hqpos : (0 < IZR q)%R) by (apply IZR_lt; assumption).
    assert (HT : IZR overflow_threshold = (bpow 1024 - bpow 970)%R).
    { unfold overflow_threshold. now rewrite minus_IZR, !IZR_pow2 by lia. }
    apply IZR_lt in Hlt. rewrite mult_IZR, HT in Hlt.
    pose proof (bpow_pos 970) as H970.
    assert (Hk : k < 1024).
    { apply bpow_lt_inv. nra. }
    rewrite Hfl in Hc |- *.
    destruct (Z.eqb_spec m0 (2 ^ 53)) as [E | NE].
    + assert (He : e0 < 971).
      { apply bpow_lt_inv.
        destruct Herr as (_ & Herr).
        rewrite E, IZR_pow2 in Herr by lia.
        assert (Hpq : (IZR p / IZR q < bpow 1024 - bpow 970)%R).
        { apply Rmult_lt_reg_r with (IZR q); [assumption|].
          unfold Rdiv. rewrite Rmult_assoc, Rinv_l by lra. lra. }
        assert (E1 : (bpow 1024 = bpow 53 * bpow 971)%R)
          by (rewrite <- bpow_add; reflexivity).
        assert (E2 : (bpow 971 = 2 * bpow 970)%R).
        { replace 971 with (1 + 970) by lia. rewrite bpow_add.
          f_equal. unfold bpow; simpl; lra. }
        pose proof (bpow_pos e0).
        assert (H53 : (2 <= bpow 53)%R).
        { pose proof (bpow_le 1 53 ltac:(lia)).
          assert (bpow 1 = 2%R) by (unfold bpow; simpl; lra). lra. }
        apply Rmult_lt_reg_l with (bpow 53 - / 2)%R; [lra|].
        lra. }
      destruct (Z.ltb_spec emax (e0 + 1)); [unfold emax in *; lia|].
      now exists (2 ^ 52), (e0 + 1).
    + destruct (Z.ltb_spec emax e0); [unfold emax, emin in *; lia|].
      now exists m0, e0.
  - unfold fl in *. destruct (Z.leb_spec p 0); [|lia].
    now exists 0, emin.
Qed.

(** In the normal range, rounding has a relative error of at most
    [2^-53]. *)
Lemma fl_error (p q m e : Z) :
  0 < p -> 0 < q ->
  (IZR q * bpow (-1022) <= IZR p)%R ->
  fl p q = Fin m e ->
  (- (IZR p / IZR q * bpow (-53))
   <= F2R (Fin m e) - IZR p / IZR q
   <= IZR p / IZR q * bpow (-53))%R.
Proof.
  intros Hp Hq Hnormal Hfl.
  destruct (fl_inv p q Hp Hq) as (m0 & e0 & He0 & _ & Hm & Hnorm & Herr & Hfl').
  pose proof (ilog2_frac_spec p q Hp Hq) as (Hlo & Hhi).
  set (k := ilog2_frac p q) in *.
  assert (Hqpos : (0 < IZR q)%R) by (apply IZR_lt; assumption).
  assert (Hk : -1022 < k + 1) by (apply bpow_lt_inv; nra).
  assert (He : e0 = k - 52) by (unfold emin in *; lia).
  assert (Hval : F2R (Fin m e) = (IZR m0 * bpow e0)%R).
  { rewrite Hfl' in Hfl.
    destruct (Z.eqb_spec m0 (2 ^ 53)) as [E | NE].
    - destruct (emax <? e0 + 1); [discriminate|].
      injection Hfl as <- <-. cbn [F2R]. fold (bpow (e0 + 1)).
      change (Z.pow_pos 2 52) with (2 ^ 52).
      rewrite E, !IZR_pow2, <- !bpow_add by lia. f_equal. lia.
    - destruct (emax <? e0); [discriminate|].
      now injection Hfl as <- <-. }
  rewrite Hval.
  assert (Hpq : (bpow k <= IZR p / IZR q)%R).
  { apply Rmult_le_reg_r with (IZR q); [assumption|].
    unfold Rdiv. rewrite Rmult_assoc, Rinv_l by lra. lra. }
  assert (E : (bpow e0 / 2 = bpow k * bpow (-53))%R).
  { rewrite <- bpow_add. replace (k + -53) with (e0 + -1) by lia.
    rewrite bpow_add. unfold bpow at 3; simpl. lra. }
  rewrite E in Herr. pose proof (bpow_pos (-53)). nra.
Qed.

(** Rounding, stated on the real number [v = p / q] that is rounded. *)
Lemma fl_R (p q : Z) (v : R) :
  0 < q ->
  (IZR p = v * IZR q)%R ->
  (bpow (-1022) <= v)%R ->
  (v < IZR overflow_threshold)%R ->
  exists m e,
    fl p q = Fin m e /\ canonical (Fin m e)
    /\ (- (v * bpow (-53)) <= F2R (Fin m e) - v <= v * bpow (-53))%R.
Proof.
  intros Hq Hv Hlo Hhi.
  assert (Hqpos : (0 < IZR q)%R) by (apply IZR_lt; assumption).
  pose proof (bpow_pos (-1022)) as Hb.
  assert (Hp : 0 < p).
  { apply lt_IZR. rewrite Hv. nra. }
  assert (Hlt : p < q * overflow_threshold).
  { apply lt_IZR. rewrite mult_IZR, Hv. nra. }
  destruct (fl_finite p q Hq Hlt) as (m & e & Hfl & Hc).
  exists m, e. split; [assumption|]. split; [assumption|].
  assert (E : (IZR p / IZR q = v)%R) by (rewrite Hv; field; lra).
  rewrite <- E.
  apply fl_error; trivial.
  rewrite Hv. nra.
Qed.

(** The fraction [fl2] rounds is [m * 2^e]. *)
Lemma fl2_fraction (m e : Z) :
  0 < scaled_den 1 (- e)
  /\ (IZR (scaled_num m (- e)) = IZR m * bpow e * IZR (scaled_den 1 (- e)))%R.
Proof.
  split; [apply scaled_den_pos; lia|].
  pose proof (scaled_ratio m 1 (- e)) as H.
  pose proof (bpow_opp e) as Ho.
  replace (IZR (scaled_num m (- e)))
    with (IZR (scaled_num m (- e)) * 1 * bpow (- e) * bpow e)%R
    by (rewrite Rmult_assoc, Ho; ring).
  rewrite H. ring.
Qed.

Lemma fmul_R (m1 e1 m2 e2 : Z) :
  let v := (F2R (Fin m1 e1) * F2R (Fin m2 e2))%R in
  (bpow (-1022) <= v)%R ->
  (v < IZR overflow_threshold)%R ->
  exists m e,
    fmul (Fin m1 e1) (Fin m2 e2) = Fin m e /\ canonical (Fin m e)
    /\ (- (v * bpow (-53)) <= F2R (Fin m e) - v <= v * bpow (-53))%R.
Proof.
  intros v Hlo Hhi. cbn [fmul]. unfold fl2.
  destruct (fl2_fraction (m1 * m2) (e1 + e2)) as (HQ & HP).
  apply fl_R; trivial.
  rewrite HP. unfold v; cbn [F2R]. rewrite mult_IZR, bpow_add. ring.
Qed.

(** [int(x)] is at least any integer that [x] is at least. *)
Lemma to_int_ge (m e K : Z) :
  (IZR K <= F2R (Fin m e))%R ->
  exists t, to_int (Fin m e) = Ok t /\ K <= t.
Proof.
  cbn [F2R to_int]; intros H.
  eexists; split; [reflexivity|].
  destruct (Z.ltb_spec e 0) as [L | G].
  - apply Z.div_le_lower_bound; [apply Z.pow_pos_nonneg; lia|].
    apply le_IZR. rewrite mult_IZR, IZR_pow2 by lia.
    pose proof (bpow_opp e). pose proof (bpow_pos (- e)). pose proof (bpow_pos e).
    replace (IZR m) with (IZR m * bpow e * bpow (- e))%R
      by (rewrite Rmult_assoc, (Rmult_comm (bpow e)), H0; ring).
    nra.
  - apply le_IZR. rewrite mult_IZR, IZR_pow2 by lia. exact H.
Qed.

Lemma bpow_m53 : bpow (-53) = (/ 9007199254740992)%R.
Proof. unfold bpow. simpl. lra. Qed.

Lemma bpow_m1022_le_1 : (bpow (-1022) <= 1)%R.
Proof. change 1%R with (bpow 0). apply bpow_le. lia. Qed.

Lemma literal_0_6 : literal 6 10 = Fin 5404319552844595 (-53).
Proof. vm_compute. reflexivity. Qed.

Lemma overflow_threshold_large : (4611686018427387904 < IZR overflow_threshold)%R.
Proof. apply IZR_lt. vm_compute. reflexivity. Qed.

Lemma estimate_output_tokens_small_inputs :
  forallb output_estimate_agrees (map Z.of_nat (seq 0 (Z.to_nat 6667))) = true.
Proof. vm_compute. reflexivity. Qed.

Lemma estimate_output_tokens_below_6667 (n : Z) :
  0 <= n < 6667 ->
  estimate_output_tokens n = Ok (Z.max 50 (Z.min (3 * n / 5) 4000)).
Proof.
  intros Hn.
  pose proof estimate_output_tokens_small_inputs as H.
  rewrite forallb_forall in H.
  specialize (H n).
  assert (Hin : In n (map Z.of_nat (seq 0 (Z.to_nat 6667)))).
  { rewrite <- (Z2Nat.id n) by lia. apply in_map, in_seq. lia. }
  specialize (H Hin). unfold output_estimate_agrees in H.
  destruct (estimate_output_tokens n) as [r | e]; [|discriminate].
  apply Z.eqb_eq in H. now subst.
Qed.

Lemma estimate_output_tokens_from_6667 (n : Z) :
  6667 <= n < overflow_threshold ->
  estimate_output_tokens n = Ok 4000.
Proof.
  intros (Hlo & Hhi).
  assert (Hn : (6667 <= IZR n)%R) by (apply IZR_le; assumption).
  assert (HnT : (IZR n < IZR overflow_threshold)%R) by (apply IZR_lt; assumption).
  pose proof bpow_m1022_le_1 as H1022.
  pose proof overflow_threshold_large as HT.
  destruct (fl_R n 1 (IZR n)) as (m & e & Hfl & Hc & Herr);
    [lia | simpl; ring | lra | lra |].
  unfold estimate_output_tokens, of_int. rewrite Hfl. cbn [bind].
  rewrite literal_0_6.
  rewrite bpow_m53 in Herr.
  assert (Hc06 : F2R (Fin 5404319552844595 (-53))
                 = (5404319552844595 / 9007199254740992)%R).
  { cbn [F2R]. rewrite bpow_m53. reflexivity. }
  destruct (fmul_R m e 5404319552844595 (-53)) as (m' & e' & Hmul & Hc' & Herr').
  - rewrite Hc06. lra.
  - rewrite Hc06. lra.
  - rewrite Hmul. rewrite Hc06, bpow_m53 in Herr'.
    destruct (to_int_ge m' e' 4000) as (t & Ht & Hge); [lra|].
    rewrite Ht. cbn [bind]. f_equal. lia.
Qed.

Lemma fl2_canonical (m e : Z) : canonical (fl2 m e).
Proof. unfold fl2. apply fl_canonical, scaled_den_pos. lia. Qed.

Lemma fmul_canonical (x y : float) : canonical (fmul x y).
Proof.
  destruct x as [m1 e1| |], y as [m2 e2| |]; cbn [fmul];
    try exact I; try apply fl2_canonical.
  - destruct (m1 =? 0); exact I.
  - destruct (m2 =? 0); exact I.
Qed.

Lemma fadd_canonical (x y : float) : canonical (fadd x y).
Proof.
  destruct x as [m1 e1| |], y as [m2 e2| |]; cbn [fadd];
    try exact I; apply fl2_canonical.
Qed.

Lemma truediv_finite (n d : Z) :
  0 < d -> n < d * overflow_threshold ->
  exists m e, truediv n d = Ok (Fin m e) /\ canonical (Fin m e).
Proof.
  intros Hd Hn. unfold truediv.
  destruct (fl_finite n d Hd Hn) as (m & e & -> & Hc).
  now exists m, e.
Qed.

(** The largest finite float. *)
Lemma canonical_le_max (m e : Z) :
  canonical (Fin m e) ->
  (F2R (Fin m e) <= IZR (2 ^ 1024 - 2 ^ 971))%R.
Proof.
  cbn [canonical F2R]; unfold emin, emax; intros ((_ & He) & (Hm0 & Hm) & _).
  assert (E : IZR (2 ^ 1024 - 2 ^ 971) = (IZR (2 ^ 53 - 1) * bpow 971)%R).
  { rewrite <- IZR_pow2, <- mult_IZR by lia. f_equal. }
  rewrite E.
  pose proof (bpow_le e 971 He). pose proof (bpow_pos e).
  assert (H1 : (0 <= IZR m)%R) by (apply IZR_le; assumption).
  assert (H2 : (IZR m <= IZR (2 ^ 53 - 1))%R) by (apply IZR_le; lia).
  apply Rmult_le_compat; lra.
Qed.

(** [round(x, ndigits)] never raises on a float the program computes. *)
Lemma round_ndigits_total (x : float) (ndigits : Z) :
  canonical x -> 0 <= ndigits ->
  exists r, round_ndigits x ndigits = Ok r /\ canonical r.
Proof.
  intros Hc Hnd.
  destruct x as [m e| |]; [|now exists Inf | now exists NaN].
  cbn [round_ndigits].
  set (scale := 10 ^ ndigits).
  assert (Hscale : 0 < scale) by (apply Z.pow_pos_nonneg; lia).
  set (d := rne_div (scaled_num (m * scale) (- e)) (scaled_den 1 (- e))).
  destruct (fl2_fraction (m * scale) e) as (HQ & HP).
  assert (Hd : d <= scale * (2 ^ 1024 - 2 ^ 971)).
  { apply rne_div_le; [assumption|].
    apply le_IZR. rewrite HP, !mult_IZR.
    pose proof (canonical_le_max m e Hc) as Hmax. cbn [F2R] in Hmax.
    assert (Hs : (0 < IZR scale)%R) by (apply IZR_lt; assumption).
    assert (HQr : (0 < IZR (scaled_den 1 (- e)))%R) by (apply IZR_lt; assumption).
    replace (IZR m * IZR scale * bpow e * IZR (scaled_den 1 (- e)))%R
      with (IZR scale * (IZR m * bpow e) * IZR (scaled_den 1 (- e)))%R by ring.
    apply Rmult_le_compat_r; [lra|].
    apply Rmult_le_compat_l; lra. }
  assert (Hlt : d < scale * overflow_threshold).
  { unfold overflow_threshold.
    assert (2 ^ 1024 - 2 ^ 971 < 2 ^ 1024 - 2 ^ 970) by (vm_compute; reflexivity).
    nia. }
  destruct (fl_finite d scale Hscale Hlt) as (m' & e' & Hfl & Hc').
  rewrite Hfl. now exists (Fin m' e').
Qed.

Lemma of_int_100 : of_int REQUESTS_PER_DAY = Ok (fl 100 1).
Proof. vm_compute. reflexivity. Qed.

Lemma of_int_7 : of_int 7 = Ok (fl 7 1).
Proof. vm_compute. reflexivity. Qed.

Lemma of_int_30 : of_int 30 = Ok (fl 30 1).
Proof. vm_compute. reflexivity. Qed.

(** [calculate_cost] returns whenever the two divisions by 1000 do, and
    its fields are the rounded formulas of its body. *)
Lemma calculate_cost_returns (input_tokens output_tokens : Z) :
  input_tokens < 1000 * overflow_threshold ->
  output_tokens < 1000 * overflow_threshold ->
  exists i o cost,
    truediv input_tokens 1000 = Ok i
    /\ truediv output_tokens 1000 = Ok o
    /\ calculate_cost input_tokens output_tokens = Ok cost
    /\ round_ndigits (fmul i (literal 3 1000)) 6 = Ok (input cost)
    /\ round_ndigits (fmul o (literal 15 1000)) 6 = Ok (output cost)
    /\ round_ndigits
         (fadd (fmul i (literal 3 1000)) (fmul o (literal 15 1000))) 6
       = Ok (total_per_request cost)
    /\ round_ndigits
         (fmul (fmul (fadd (fmul i (literal 3 1000))
                           (fmul o (literal 15 1000)))
                     (fl 100 1))
               (fl 7 1)) 4
       = Ok (weekly_estimate cost)
    /\ round_ndigits
         (fmul (fmul (fadd (fmul i (literal 3 1000))
                           (fmul o (literal 15 1000)))
                     (fl 100 1))
               (fl 30 1)) 4
       = Ok (monthly_estimate cost).
Proof.
  intros Hi Ho.
  destruct (truediv_finite input_tokens 1000 ltac:(lia) Hi) as (mi & ei & Hti & _).
  destruct (truediv_finite output_tokens 1000 ltac:(lia) Ho) as (mo & eo & Hto & _).
  set (i := Fin mi ei) in *. set (o := Fin mo eo) in *.
  set (input_cost := fmul i (literal 3 1000)).
  set (output_cost := fmul o (literal 15 1000)).
  set (total_cost := fadd input_cost output_cost).
  set (weekly_cost := fmul (fmul total_cost (fl 100 1)) (fl 7 1)).
  set (monthly_cost := fmul (fmul total_cost (fl 100 1)) (fl 30 1)).
  destruct (round_ndigits_total input_cost 6) as (r1 & H1 & _);
    [apply fmul_canonical | lia |].
  destruct (round_ndigits_total output_cost 6) as (r2 & H2 & _);
    [apply fmul_canonical | lia |].
  destruct (round_ndigits_total total_cost 6) as (r3 & H3 & _);
    [apply fadd_canonical | lia |].
  destruct (round_ndigits_total weekly_cost 4) as (r4 & H4 & _);
    [apply fmul_canonical | lia |].
  destruct (round_ndigits_total monthly_cost 4) as (r5 & H5 & _);
    [apply fmul_canonical | lia |].
  exists i, o,
    {| input := r1; output := r2; total_per_request := r3;
       weekly_estimate := r4; monthly_estimate := r5 |}.
  cbn [input output total_per_request weekly_estimate monthly_estimate].
  repeat split; trivial.
  unfold calculate_cost.
  rewrite Hti; cbn [bind]. rewrite Hto; cbn [bind].
  rewrite of_int_100; cbn [bind]. rewrite of_int_7; cbn [bind].
  rewrite of_int_30; cbn [bind].
  change (input_price_per_1k SONNET_4) with (literal 3 1000).
  change (output_price_per_1k SONNET_4) with (literal 15 1000).
  fold input_cost output_cost. fold total_cost.
  fold weekly_cost monthly_cost.
  rewrite H1; cbn [bind]. rewrite H2; cbn [bind]. rewrite H3; cbn [bind].
  rewrite H4; cbn [bind]. rewrite H5; cbn [bind]. reflexivity.
Qed.

(** Rounding a number that a normal float represents gives that float. *)
Lemma fl_exact (p q m e : Z) :
  0 < q -> canonical (Fin m e) -> 2 ^ 52 <= m ->
  (IZR p = IZR m * bpow e * IZR q)%R ->
  fl p q = Fin m e.
Proof.
  intros Hq Hc Hm Hv.
  cbn [canonical] in Hc. destruct Hc as ((He1 & He2) & (_ & Hm') & _).
  assert (Hqpos : (0 < IZR q)%R) by (apply IZR_lt; assumption).
  pose proof (bpow_pos e) as Hbe.
  assert (Hm52 : (bpow 52 <= IZR m)%R).
  { rewrite <- IZR_pow2 by lia. apply IZR_le; assumption. }
  assert (Hm53 : (IZR m < bpow 53)%R).
  { rewrite <- IZR_pow2 by lia. apply IZR_lt; assumption. }
  pose proof (bpow_pos 52) as Hb52.
  assert (Hp : 0 < p).
  { apply lt_IZR. rewrite Hv. apply Rmult_lt_0_compat; [|assumption].
    apply Rmult_lt_0_compat; lra. }
  assert (Hk : ilog2_frac p q = 52 + e).
  { apply ilog2_frac_unique; trivial.
    replace (52 + e + 1) with (53 + e) by lia.
    rewrite Hv, !bpow_add.
    assert (Hbq : (0 < bpow e * IZR q)%R) by (apply Rmult_lt_0_compat; lra).
    replace (IZR q * (bpow 52 * bpow e))%R with (bpow 52 * (bpow e * IZR q))%R by ring.
    replace (IZR q * (bpow 53 * bpow e))%R with (bpow 53 * (bpow e * IZR q))%R by ring.
    replace (IZR m * bpow e * IZR q)%R with (IZR m * (bpow e * IZR q))%R by ring.
    split; [apply Rmult_le_compat_r | apply Rmult_lt_compat_r]; lra. }
  destruct (fl_inv p q Hp Hq) as (m0 & e0 & He0 & Hm0 & _ & _ & _ & ->).
  rewrite Hk in He0. assert (He0e : e0 = e) by lia. clear He0. subst e0.
  assert (Hmm : m0 = m).
  { rewrite Hm0.
    destruct (scaled_R e) as (A & HA & Hn & Hd).
    replace (scaled_num p e) with (m * scaled_den q e).
    - apply rne_div_exact, scaled_den_pos; assumption.
    - apply eq_IZR. rewrite mult_IZR, Hn, Hd, Hv. ring. }
  clear Hm0. subst m0.
  destruct (Z.eqb_spec m (2 ^ 53)); [lia|].
  destruct (Z.ltb_spec emax e); [lia | reflexivity].
Qed.

(** Doubling the number that is rounded doubles the float. *)
Lemma fl_double (p q m e : Z) :
  0 < p -> 0 < q ->
  (IZR q * bpow (-1022) <= IZR p)%R ->
  fl p q = Fin m e ->
  2 * p < q * overflow_threshold ->
  fl (2 * p) q = Fin m (e + 1).
Proof.
  intros Hp Hq Hnormal Hfl Hlt.
  assert (Hqpos : (0 < IZR q)%R) by (apply IZR_lt; assumption).
  pose proof (ilog2_frac_spec p q Hp Hq) as (Hlo & Hhi).
  set (k := ilog2_frac p q) in *.
  assert (Hk : -1022 < k + 1) by (apply bpow_lt_inv; nra).
  assert (Hk2 : ilog2_frac (2 * p) q = k + 1).
  { apply ilog2_frac_unique; [lia | assumption |].
    assert (E : bpow 1 = 2%R) by (unfold bpow; simpl; lra).
    rewrite (bpow_add k 1), E in Hhi.
    rewrite mult_IZR, !(bpow_add _ 1), E. split; lra. }
  destruct (fl_inv p q Hp Hq) as (m0 & e0 & He0 & Hm0 & _ & _ & _ & Hfl1).
  destruct (fl_inv (2 * p) q ltac:(lia) Hq) as (m0' & e0' & He0' & Hm0' & _ & _ & _ & Hfl2).
  fold k in He0. rewrite Hk2 in He0'.
  assert (He : e0' = e0 + 1) by (unfold emin in *; lia).
  assert (Hmm : m0' = m0).
  { rewrite Hm0', Hm0, He.
    apply rne_div_ratio; try (apply scaled_den_pos; assumption).
    destruct (scaled_R e0) as (A & HA & Hn & Hd).
    destruct (scaled_R (e0 + 1)) as (A' & HA' & Hn' & Hd').
    apply eq_IZR. rewrite !mult_IZR, Hn, Hd, Hn', Hd', mult_IZR, bpow_add.
    assert (E : bpow 1 = 2%R) by (unfold bpow; simpl; lra).
    rewrite E. ring. }
  destruct (fl_finite (2 * p) q Hq Hlt) as (m2 & e2 & Hfin & _).
  rewrite Hfl1 in Hfl. rewrite Hfl2 in Hfin |- *. rewrite Hmm, He in *.
  destruct (m0 =? 2 ^ 53).
  - destruct (emax <? e0 + 1); [discriminate|].
    destruct (emax <? e0 + 1 + 1); [discriminate|].
    injection Hfl as <- <-. reflexivity.
  - destruct (emax <? e0); [discriminate|].
    destruct (emax <? e0 + 1); [discriminate|].
    injection Hfl as <- <-. reflexivity.
Qed.

(** [2 * x] on a normal float. *)
Lemma fmul_two (m e : Z) :
  canonical (Fin m (e + 1)) -> 2 ^ 52 <= m ->
  fmul (fl 2 1) (Fin m e) = Fin m (e + 1).
Proof.
  intros Hc Hm.
  replace (fl 2 1) with (Fin (2 ^ 52) (-51)) by (vm_compute; reflexivity).
  cbn [fmul]. unfold fl2.
  destruct (fl2_fraction (2 ^ 52 * m) (-51 + e)) as (HQ & HP).
  apply fl_exact; trivial.
  rewrite HP. f_equal.
  rewrite mult_IZR, IZR_pow2, !bpow_add by lia.
  assert (E : (bpow 52 * bpow (-51) = bpow 1)%R)
    by (rewrite <- bpow_add; reflexivity).
  rewrite (Rmult_comm (bpow e) (bpow 1)), <- E. ring.
Qed.

(** [round(x, ndigits)] when [x] is within half a unit of the last digit
    of the decimal [D / 10^ndigits]. *)
Lemma round_ndigits_nearest (m e ndigits D : Z) :
  0 <= ndigits ->
  (- / 2 < F2R (Fin m e) * IZR (10 ^ ndigits) - IZR D < / 2)%R ->
  D < 10 ^ ndigits * overflow_threshold ->
  round_ndigits (Fin m e) ndigits = Ok (fl D (10 ^ ndigits)).
Proof.
  intros Hnd Hnear HD.
  cbn [round_ndigits F2R] in *.
  set (scale := 10 ^ ndigits) in *.
  assert (Hscale : 0 < scale) by (apply Z.pow_pos_nonneg; lia).
  destruct (fl2_fraction (m * scale) e) as (HQ & HP).
  assert (HQr : (0 < IZR (scaled_den 1 (- e)))%R) by (apply IZR_lt; assumption).
  assert (Hd : rne_div (scaled_num (m * scale) (- e)) (scaled_den 1 (- e)) = D).
  { apply rne_div_unique; [assumption|].
    split; apply lt_IZR;
      rewrite ?opp_IZR, mult_IZR, minus_IZR, mult_IZR, HP, mult_IZR; nra. }
  rewrite Hd.
  destruct (fl_finite D scale Hscale HD) as (m' & e' & -> & _).
  reflexivity.
Qed.

Lemma literal_0_003 : literal 3 1000 = Fin 6917529027641082 (-61).
Proof. vm_compute. reflexivity. Qed.

Lemma bpow_m61 : bpow (-61) = (/ 2305843009213693952)%R.
Proof. unfold bpow. simpl. lra. Qed.

Lemma bpow_m1022_small : (bpow (-1022) <= / 1048576)%R.
Proof.
  assert (E : bpow (-20) = (/ 1048576)%R) by (unfold bpow; simpl; lra).
  rewrite <- E. apply bpow_le. lia.
Qed.

(** Up to [2^48] input tokens the rounded input cost is the float
    nearest to the decimal [3 * input_tokens / 10^6]. *)
Lemma input_cost_exact (x : Z) :
  0 <= x <= 2 ^ 48 ->
  round_ndigits (fmul (fl x 1000) (literal 3 1000)) 6
  = Ok (fl (3 * x) 1000000).
Proof.
  intros (Hx0 & Hx).
  destruct (Z.eq_dec x 0) as [-> | Hne]; [vm_compute; reflexivity|].
  assert (Hx1 : (1 <= IZR x)%R) by (apply IZR_le; lia).
  assert (Hx2 : (IZR x <= 281474976710656)%R).
  { apply IZR_le in Hx. exact Hx. }
  pose proof bpow_m1022_small as Hsmall.
  pose proof overflow_threshold_large as HT.
  destruct (fl_R x 1000 (IZR x / 1000)) as (mi & ei & Hi & _ & Herr);
    [lia | field | lra | lra |].
  rewrite Hi, literal_0_003.
  rewrite bpow_m53 in Herr.
  assert (Hc : F2R (Fin 6917529027641082 (-61))
               = (6917529027641082 / 2305843009213693952)%R).
  { cbn [F2R]. rewrite bpow_m61. reflexivity. }
  destruct (fmul_R mi ei 6917529027641082 (-61)) as (my & ey & Hy & _ & Herr').
  - rewrite Hc. lra.
  - rewrite Hc. lra.
  - rewrite Hy. rewrite Hc, bpow_m53 in Herr'.
    change 1000000 with (10 ^ 6).
    apply round_ndigits_nearest; [lia | |].
    + change (10 ^ 6) with 1000000. rewrite mult_IZR. lra.
    + assert (2 ^ 62 < overflow_threshold) by (vm_compute; reflexivity).
      change (10 ^ 6) with 1000000. lia.
Qed.

(** * The claims on the float arithmetic *)

(** C1 (amended).  For every input below the float overflow threshold
    [2^1024 - 2^970], [estimate_output_tokens] returns
    [int(input_tokens * 0.6)] clamped to [50, 4000]; the truncated float
    product clamps to the same value as [3 * input_tokens // 5].  The
    result lies in [50, 4000], it is 50 for 0 and 4000 for 10000. *)
Theorem estimate_output_tokens_clamps (input_tokens : Z) :
  0 <= input_tokens < overflow_threshold ->
  estimate_output_tokens input_tokens
  = Ok (Z.max 50 (Z.min (3 * input_tokens / 5) 4000))
  /\ 50 <= Z.max 50 (Z.min (3 * input_tokens / 5) 4000) <= 4000
  /\ estimate_output_tokens 0 = Ok 50
  /\ estimate_output_tokens 10000 = Ok 4000.
Proof.
  intros (H0 & HT).
  split; [|split; [lia | split; vm_compute; reflexivity]].
  destruct (Z_lt_le_dec input_tokens 6667) as [L | G].
  - apply estimate_output_tokens_below_6667; lia.
  - rewrite estimate_output_tokens_from_6667 by lia.
    f_equal.
    assert (4000 <= 3 * input_tokens / 5) by (apply Z.div_le_lower_bound; lia).
    lia.
Qed.

(** C2 (amended).  For token counts whose quotient by 1000 is still a
    float (below [1000 * (2^1024 - 2^970)]), [calculate_cost] returns,
    and its fields are: input = [(input_tokens / 1000) * 0.003] rounded to
    6 decimals, output = [(output_tokens / 1000) * 0.015] rounded to 6
    decimals, total_per_request = the unrounded sum of the two rounded to
    6 decimals, weekly_estimate = [total * 100 * 7] and monthly_estimate =
    [total * 100 * 30] of the unrounded total, rounded to 4 decimals. *)
Theorem calculate_cost_fields (input_tokens output_tokens : Z) :
  0 <= input_tokens < 1000 * overflow_threshold ->
  0 <= output_tokens < 1000 * overflow_threshold ->
  exists i o cost,
    truediv input_tokens 1000 = Ok i
    /\ truediv output_tokens 1000 = Ok o
    /\ calculate_cost input_tokens output_tokens = Ok cost
    /\ round_ndigits (fmul i (literal 3 1000)) 6 = Ok (input cost)
    /\ round_ndigits (fmul o (literal 15 1000)) 6 = Ok (output cost)
    /\ round_ndigits
         (fadd (fmul i (literal 3 1000)) (fmul o (literal 15 1000))) 6
       = Ok (total_per_request cost)
    /\ round_ndigits
         (fmul (fmul (fadd (fmul i (literal 3 1000))
                           (fmul o (literal 15 1000)))
                     (fl 100 1))
               (fl 7 1)) 4
       = Ok (weekly_estimate cost)
    /\ round_ndigits
         (fmul (fmul (fadd (fmul i (literal 3 1000))
                           (fmul o (literal 15 1000)))
                     (fl 100 1))
               (fl 30 1)) 4
       = Ok (monthly_estimate cost).
Proof.
  intros (_ & Hi) (_ & Ho). now apply calculate_cost_returns.
Qed.

(** ** Doubling the input tokens *)

Lemma truediv_ok (a b : Z) (i : float) : truediv a b = Ok i -> fl a b = i.
Proof.
  unfold truediv. destruct (fl a b); intros H; inversion H; reflexivity.
Qed.

(** A rational of at least [2^-1021] rounds to a float with a full
    significand. *)
Lemma fl_normal (p q m e : Z) :
  0 < p -> 0 < q ->
  (IZR q * bpow (-1021) <= IZR p)%R ->
  fl p q = Fin m e ->
  2 ^ 52 <= m.
Proof.
  intros Hp Hq Hnormal Hfl.
  assert (Hqpos : (0 < IZR q)%R) by (apply IZR_lt; assumption).
  pose proof (ilog2_frac_spec p q Hp Hq) as (Hlo & Hhi).
  set (k := ilog2_frac p q) in *.
  assert (Hk : -1021 < k + 1) by (apply bpow_lt_inv; nra).
  destruct (fl_inv p q Hp Hq) as (m0 & e0 & He0 & _ & _ & Hnorm & _ & Hfl1).
  fold k in He0.
  assert (Hm0 : 2 ^ 52 <= m0) by (apply Hnorm; unfold emin in *; lia).
  rewrite Hfl1 in Hfl.
  destruct (m0 =? 2 ^ 53).
  - destruct (emax <? e0 + 1); [discriminate|].
    injection Hfl as <- <-. lia.
  - destruct (emax <? e0); [discriminate|].
    injection Hfl as <- <-. assumption.
Qed.

(** The rounded input cost of [2 * x] tokens is twice that of [x]
    tokens, up to [2^47] tokens. *)
Lemma input_cost_double (x : Z) :
  0 <= x <= 2 ^ 47 ->
  exists r,
    round_ndigits (fmul (fl x 1000) (literal 3 1000)) 6 = Ok r
    /\ round_ndigits (fmul (fl (2 * x) 1000) (literal 3 1000)) 6
       = Ok (fmul (fl 2 1) r).
Proof.
  intros (Hx0 & Hx).
  assert (H48 : 2 ^ 48 = 2 * 2 ^ 47) by reflexivity.
  rewrite (input_cost_exact x) by lia.
  rewrite (input_cost_exact (2 * x)) by lia.
  eexists; split; [reflexivity|]. f_equal.
  destruct (Z.eq_dec x 0) as [-> | Hne]; [vm_compute; reflexivity|].
  assert (HT : 2 ^ 62 < overflow_threshold) by (vm_compute; reflexivity).
  assert (H47 : 2 ^ 47 = 140737488355328) by reflexivity.
  assert (Hq : 0 < 1000000) by lia.
  assert (Hx1 : (1 <= IZR x)%R) by (apply IZR_le; lia).
  assert (Hsmall : (IZR 1000000 * bpow (-1021) <= IZR (3 * x))%R).
  { pose proof (bpow_le (-1021) (-1020) ltac:(lia)).
    pose proof (bpow_le (-1021) (-20) ltac:(lia)) as H20.
    assert (E : bpow (-20) = (/ 1048576)%R) by (unfold bpow; simpl; lra).
    rewrite E in H20. rewrite mult_IZR. lra. }
  assert (Hsmall' : (IZR 1000000 * bpow (-1022) <= IZR (3 * x))%R).
  { pose proof (bpow_le (-1022) (-1021) ltac:(lia)). lra. }
  destruct (fl_finite (3 * x) 1000000 Hq ltac:(lia)) as (m & e & Hfl & _).
  assert (H2 : fl (3 * (2 * x)) 1000000 = Fin m (e + 1)).
  { replace (3 * (2 * x)) with (2 * (3 * x)) by ring.
    apply fl_double; trivial; lia. }
  rewrite H2, Hfl. symmetry. apply fmul_two.
  - rewrite <- H2. apply fl_canonical. lia.
  - apply (fl_normal (3 * x) 1000000 m e); trivial; lia.
Qed.

(** C9 (amended).  For every input token count [x] up to [10^14], with
    the output tokens re-derived by [estimate_output_tokens], both cost
    computations return and the input field of the cost of [2 * x] tokens
    is exactly twice (as a float product [2 * _]) the input field of the
    cost of [x] tokens. *)
Theorem doubling_input_tokens_doubles_input_cost (x : Z) :
  0 <= x <= 10 ^ 14 ->
  exists o1 o2 c1 c2,
    estimate_output_tokens x = Ok o1
    /\ estimate_output_tokens (2 * x) = Ok o2
    /\ calculate_cost x o1 = Ok c1
    /\ calculate_cost (2 * x) o2 = Ok c2
    /\ input c2 = fmul (fl 2 1) (input c1).
Proof.
  intros (Hx0 & Hx).
  assert (HT : 2 ^ 62 < overflow_threshold) by (vm_compute; reflexivity).
  assert (H14 : 10 ^ 14 < 2 ^ 47) by (vm_compute; reflexivity).
  assert (H47 : 2 ^ 47 < 2 ^ 62) by (vm_compute; reflexivity).
  set (c := fun n => Z.max 50 (Z.min (3 * n / 5) 4000)).
  assert (Ho : forall n, 0 <= n <= 2 * 10 ^ 14 ->
                         estimate_output_tokens n = Ok (c n)).
  { intros n Hn. unfold c.
    destruct (Z_lt_le_dec n 6667) as [L | G].
    - apply estimate_output_tokens_below_6667; lia.
    - rewrite estimate_output_tokens_from_6667 by lia.
      f_equal.
      assert (4000 <= 3 * n / 5) by (apply Z.div_le_lower_bound; lia).
      lia. }
  assert (Hc : forall n, 0 <= c n < 1000 * overflow_threshold)
    by (intros n; unfold c; lia).
  destruct (calculate_cost_returns x (c x) ltac:(lia) ltac:(apply Hc))
    as (i1 & ? & c1 & Hi1 & _ & Hc1 & Hin1 & _).
  destruct (calculate_cost_returns (2 * x) (c (2 * x)) ltac:(lia) ltac:(apply Hc))
    as (i2 & ? & c2 & Hi2 & _ & Hc2 & Hin2 & _).
  exists (c x), (c (2 * x)), c1, c2.
  repeat split; trivial; try (apply Ho; lia).
  apply truediv_ok in Hi1, Hi2. subst i1 i2.
  destruct (input_cost_double x ltac:(lia)) as (r & Hr1 & Hr2).
  rewrite Hr1 in Hin1. rewrite Hr2 in Hin2.
  injection Hin1 as <-. injection Hin2 as <-. reflexivity.
Qed.

(* ================================================================== *)
(** * The properties at concrete inputs *)

(** ** Token estimators *)

(** C6 at the text [  ab cd  ]: trimmed to [ab cd], 5 characters, one
    token. *)
Lemma estimate_text_tokens_example :
  estimate_text_tokens (PyStr (str_lit "  ab cd  ")) = Ok 1
  /\ strip (str_lit "  ab cd  ") = str_lit "ab cd".
Proof.
  split; [|reflexivity].
  exact (proj1 (proj2 (proj2 estimate_text_tokens_correct)) 32 (str_lit " ab cd  ")).
Defined.

(** C1 at 86 tokens: [86 * 0.6] is the float just below 51.6, truncated
    to 51. *)
Lemma estimate_output_tokens_at_86 :
  0 <= 86 < overflow_threshold /\ estimate_output_tokens 86 = Ok 51.
Proof.
  assert (H : 0 <= 86 < overflow_threshold) by (split; [lia | reflexivity]).
  split; [exact H|].
  exact (proj1 (estimate_output_tokens_clamps 86 H)).
Defined.

(** The estimate is not [clamp(round(n * 0.6), 50, 4000)]: at 86 the code
    truncates to 51 where rounding gives 52; and it is not defined on
    every non-negative integer: at [2^1024 - 2^970] the conversion to
    float raises OverflowError. *)
Lemma estimate_output_tokens_truncates :
  estimate_output_tokens 86 = Ok 51
  /\ estimate_output_tokens_as_specified 86 = Ok 52
  /\ estimate_output_tokens (2 ^ 1024 - 2 ^ 970) = Raise OverflowError.
Proof. repeat split; vm_compute; reflexivity. Qed.

(** ** Files *)

(** C7 at a zero-byte file named [Photo.PNG]. *)
Lemma image_file_tokens_example :
  In ".png"%string image_extensions
  /\ endswith (tested_name plain_name zero_byte_photo) ".png" = true
  /\ process_files plain_name [zero_byte_photo]
     = {| text_tokens := 0; image_tokens := 1600; document_tokens := 0 |}.
Proof.
  assert (Hin : In ".png"%string image_extensions) by (cbn; tauto).
  assert (Hend : endswith (tested_name plain_name zero_byte_photo) ".png" = true)
    by reflexivity.
  split; [exact Hin | split; [exact Hend|]].
  exact (proj2 (proj2 (image_file_tokens plain_name zero_byte_photo ".png"
                         Hin Hend))).
Defined.

(** C5 at a PDF with three occurrences of [/Page]. *)
Lemma pdf_document_tokens_example :
  endswith (tested_name plain_name three_page_report) ".pdf" = true
  /\ occurrences slash_Page (content three_page_report) = 3
  /\ process_files plain_name [three_page_report]
     = {| text_tokens := 0; image_tokens := 0; document_tokens := 1500 |}.
Proof.
  assert (Hend : endswith (tested_name plain_name three_page_report) ".pdf" = true)
    by reflexivity.
  assert (H3 : occurrences slash_Page (content three_page_report) = 3)
    by reflexivity.
  split; [exact Hend | split; [exact H3|]].
  exact (proj1 (proj2 (pdf_document_tokens plain_name three_page_report Hend)) H3).
Defined.

(** The extension of the uploaded name does not decide: the name is
    tested after [secure_filename], which drops the Cyrillic stem and
    then the leading dot.  The photo's name ends in [.png], its
    sanitised name is [png], and the file adds no token: the handler
    answers with the validation failure. *)
Lemma sanitised_photo_adds_nothing :
  filename cyrillic_photo = [1092; 1086; 1090; 1086] ++ str_lit ".png"
  /\ tested_name (werkzeug_secure_filename no_decomposition) cyrillic_photo
     = "png"%string
  /\ process_files (werkzeug_secure_filename no_decomposition) [cyrillic_photo]
     = no_tokens
  /\ api_calc (werkzeug_secure_filename no_decomposition) plain_text
       (Ok (upload_request [cyrillic_photo] ""))
     = validation_failure.
Proof. repeat split. Qed.

(** The same for a PDF: the report's name ends in [.pdf] and its content
    has three occurrences of [/Page], but its sanitised name is [pdf]
    and it adds no document token. *)
Lemma sanitised_report_adds_nothing :
  filename cyrillic_report = [1086; 1090; 1095; 1077; 1090] ++ str_lit ".pdf"
  /\ occurrences slash_Page (content cyrillic_report) = 3
  /\ tested_name (werkzeug_secure_filename no_decomposition) cyrillic_report
     = "pdf"%string
  /\ document_tokens
       (process_files (werkzeug_secure_filename no_decomposition)
          [cyrillic_report])
     = 0.
Proof. repeat split. Qed.

(** On the names of the other examples the library function is the
    identity, as [plain_name] is. *)
Lemma example_names_are_unchanged :
  Forall (fun f => werkzeug_secure_filename no_decomposition (filename f)
                   = plain_name (filename f))
    [zero_byte_photo; three_page_report; notes_file; unselected_file;
     archive_file; binary_text_file; euro_text_file].
Proof. repeat constructor. Qed.



(** ** The handler *)

(** C3 at a request with no file and an empty text, and at one with the
    prompt [Hello world]. *)
Lemma zero_total_is_validation_failure_examples :
  (request_breakdown plain_name (upload_request [] "") = Ok no_tokens
   /\ total_tokens no_tokens = 0
   /\ calculate plain_name plain_text (upload_request [] "")
      = validation_failure)
  /\ (request_breakdown plain_name (json_request "Hello world")
      = Ok {| text_tokens := 2; image_tokens := 0; document_tokens := 0 |}
      /\ status (calculate plain_name plain_text (json_request "Hello world"))
         = 200).
Proof.
  assert (H0 : request_breakdown plain_name (upload_request [] "") = Ok no_tokens)
    by reflexivity.
  assert (H1 : request_breakdown plain_name (json_request "Hello world")
               = Ok {| text_tokens := 2; image_tokens := 0;
                       document_tokens := 0 |})
    by reflexivity.
  split; (split; [assumption|]).
  - split; [reflexivity|].
    exact (proj1 (proj2 (zero_total_is_validation_failure plain_name plain_text
                           _ _ H0)) eq_refl).
  - destruct (proj2 (proj2 (zero_total_is_validation_failure plain_name plain_text
                              _ _ H1)) eq_refl) as (_ & [H | H]).
    + exact H.
    + vm_compute in H. discriminate H.
Defined.

(** C4 at an upload of a text file and a photo with the prompt of 54
    characters: 13 text tokens, not the 6 of the text file. *)
Lemma text_input_replaces_text_tokens_example :
  process_files plain_name [notes_file; zero_byte_photo]
  = {| text_tokens := 6; image_tokens := 1600; document_tokens := 0 |}
  /\ request_breakdown plain_name
       (upload_request [notes_file; zero_byte_photo]
          "Hello world, this is a test prompt for the calculator")
     = Ok {| text_tokens := 13; image_tokens := 1600; document_tokens := 0 |}.
Proof.
  split; [reflexivity|].
  destruct (text_input_replaces_text_tokens plain_name
              (upload_request [notes_file; zero_byte_photo]
                 "Hello world, this is a test prompt for the calculator")
              (str_lit "Hello world, this is a test prompt for the calculator")
              ltac:(discriminate)
              (or_intror (conj eq_refl eq_refl)))
    as (n & _ & -> & H).
  exact H.
Defined.

(** C10 at the same upload with an empty prompt: the 6 text tokens of
    the text file stay. *)
Lemma empty_text_input_keeps_file_tokens_example :
  lookup (str_lit "text_input")
    (form (upload_request [notes_file; zero_byte_photo] "")) = Some []
  /\ request_breakdown plain_name
       (upload_request [notes_file; zero_byte_photo] "")
     = Ok {| text_tokens := 6; image_tokens := 1600; document_tokens := 0 |}.
Proof.
  split; [reflexivity|].
  exact (proj1 (empty_text_input_keeps_file_tokens plain_name
                  (upload_request [notes_file; zero_byte_photo] ""))
           (or_intror (conj eq_refl eq_refl))).
Defined.

(** ** Costs *)

(** The cost of 13 input and 50 output tokens: 0.000039, 0.00075,
    0.000789, 0.5523 and 2.367, each as the nearest float. *)
Example calculate_cost_13_50 :
  calculate_cost 13 50
  = Ok {| input := fl 39 1000000;
          output := fl 75 100000;
          total_per_request := fl 789 1000000;
          weekly_estimate := fl 5523 10000;
          monthly_estimate := fl 2367 1000 |}.
Proof. vm_compute. reflexivity. Qed.

(** C2 at 13 input and 50 output tokens. *)
Lemma calculate_cost_fields_example :
  0 <= 13 < 1000 * overflow_threshold
  /\ 0 <= 50 < 1000 * overflow_threshold
  /\ exists cost,
       calculate_cost 13 50 = Ok cost
       /\ round_ndigits (fmul (fl 13 1000) (literal 3 1000)) 6 = Ok (input cost)
       /\ round_ndigits (fmul (fl 50 1000) (literal 15 1000)) 6
          = Ok (output cost).
Proof.
  assert (H13 : 0 <= 13 < 1000 * overflow_threshold)
    by (split; [lia | reflexivity]).
  assert (H50 : 0 <= 50 < 1000 * overflow_threshold)
    by (split; [lia | reflexivity]).
  split; [exact H13 | split; [exact H50|]].
  destruct (calculate_cost_fields 13 50 H13 H50)
    as (i & o & cost & Hi & Ho & Hc & Hin & Hout & _).
  exists cost.
  apply truediv_ok in Hi, Ho. subst i o.
  split; [exact Hc | split; [exact Hin | exact Hout]].
Defined.

(** [calculate_cost] does not return for every non-negative count: from
    [1000 * (2^1024 - 2^970)] tokens on, [input_tokens / 1000] raises
    OverflowError. *)
Lemma calculate_cost_overflows :
  calculate_cost (1000 * (2 ^ 1024 - 2 ^ 970)) 50 = Raise OverflowError
  /\ calculate_cost 13 (10 ^ 312) = Raise OverflowError.
Proof. split; vm_compute; reflexivity. Qed.

(** C9 at 1000 tokens: 0.003 and 0.006. *)
Lemma doubling_input_tokens_example :
  0 <= 1000 <= 10 ^ 14
  /\ exists c1 c2,
       calculate_cost 1000 600 = Ok c1
       /\ calculate_cost 2000 1200 = Ok c2
       /\ input c2 = fmul (fl 2 1) (input c1).
Proof.
  assert (H : 0 <= 1000 <= 10 ^ 14) by (split; [lia | discriminate]).
  split; [exact H|].
  destruct (doubling_input_tokens_doubles_input_cost 1000 H)
    as (o1 & o2 & c1 & c2 & Ho1 & Ho2 & Hc1 & Hc2 & Hin).
  assert (E1 : estimate_output_tokens 1000 = Ok 600) by (vm_compute; reflexivity).
  assert (E2 : estimate_output_tokens (2 * 1000) = Ok 1200)
    by (vm_compute; reflexivity).
  rewrite E1 in Ho1. rewrite E2 in Ho2.
  injection Ho1 as <-. injection Ho2 as <-.
  exists c1, c2. split; [exact Hc1 | split; [exact Hc2 | exact Hin]].
Defined.

(** Doubling fails at [10^15 + 2] tokens: the input cost is the float
    [6291456000000013 * 2^-21] (3000000000.000006), that of twice as many
    tokens is [6291456000000012 * 2^-20] (6000000000.000011), and twice
    the first is [6291456000000013 * 2^-20] (6000000000.000012). *)
Lemma doubling_fails_at_10e15_plus_2 :
  exists c1 c2,
    estimate_output_tokens (10 ^ 15 + 2) = Ok 4000
    /\ estimate_output_tokens (2 * (10 ^ 15 + 2)) = Ok 4000
    /\ calculate_cost (10 ^ 15 + 2) 4000 = Ok c1
    /\ calculate_cost (2 * (10 ^ 15 + 2)) 4000 = Ok c2
    /\ input c1 = Fin 6291456000000013 (-21)
    /\ input c2 = Fin 6291456000000012 (-20)
    /\ fmul (fl 2 1) (input c1) = Fin 6291456000000013 (-20)
    /\ input c2 <> fmul (fl 2 1) (input c1).
Proof.
  eexists; eexists.
  split; [vm_compute; reflexivity|].
  split; [vm_compute; reflexivity|].
  split; [vm_compute; reflexivity|].
  split; [vm_compute; reflexivity|].
  split; [reflexivity|].
  split; [reflexivity|].
  split; [vm_compute; reflexivity|].
  vm_compute. discriminate.
Qed.

(* ================================================================== *)
(** * Further properties of the estimators *)

(** ** Whitespace around a text *)

Lemma lstrip_spaces (l s : pystr) :
  forallb is_space l = true -> lstrip (l ++ s) = lstrip s.
Proof.
  induction l as [|c l IH]; simpl; [reflexivity|].
  intros H; apply andb_true_iff in H; destruct H as (Hc & Hl).
  rewrite Hc; auto.
Qed.

Lemma lstrip_all_spaces (l : pystr) :
  forallb is_space l = true -> lstrip l = [].
Proof.
  intros H. rewrite <- (app_nil_r l). now rewrite lstrip_spaces.
Qed.

Lemma lstrip_app_spaces (s r : pystr) :
  forallb is_space r = true ->
  lstrip (s ++ r) = match lstrip s with [] => [] | _ :: _ => lstrip s ++ r end.
Proof.
  intros Hr; induction s as [|c s IH]; simpl.
  - now apply lstrip_all_spaces.
  - destruct (is_space c); [exact IH | reflexivity].
Qed.

Lemma strip_padding (l s r : pystr) :
  forallb is_space l = true -> forallb is_space r = true ->
  strip (l ++ s ++ r) = strip s.
Proof.
  intros Hl Hr; unfold strip, rstrip.
  rewrite (lstrip_spaces l _ Hl), (lstrip_app_spaces s r Hr).
  destruct (lstrip s) as [|c t]; [reflexivity|].
  rewrite rev_app_distr, lstrip_spaces; [reflexivity|].
  now rewrite forallb_rev.
Qed.

Lemma strip_all_spaces (s : pystr) :
  forallb is_space s = true -> strip s = [].
Proof.
  intros H; unfold strip, rstrip. now rewrite (lstrip_all_spaces s H).
Qed.

Lemma strip_length (s : pystr) : len (strip s) <= len s.
Proof.
  destruct (strip_decompose s) as (l & r & H & _).
  apply (f_equal (@List.length Z)) in H.
  rewrite !length_app in H. unfold len. lia.
Qed.

Lemma strip_unpadded (c : Z) (s : pystr) (d : Z) :
  is_space c = false -> is_space d = false ->
  strip (c :: s ++ [d]) = c :: s ++ [d].
Proof.
  intros Hc Hd; unfold strip, rstrip.
  rewrite (lstrip_fixed _ _ Hc).
  replace (rev (c :: s ++ [d])) with (d :: rev (c :: s))
    by (change (c :: s ++ [d]) with ((c :: s) ++ [d]);
        now rewrite rev_app_distr).
  rewrite (lstrip_fixed _ _ Hd).
  change (d :: rev (c :: s)) with ([d] ++ rev (c :: s)).
  now rewrite rev_app_distr, rev_involutive.
Qed.

(** X1.  Whitespace put before or after a non-empty text does not change
    its estimate: [estimate_text_tokens] counts the trimmed text. *)
Theorem estimate_text_tokens_ignores_padding (l s r : pystr) :
  s <> [] ->
  forallb is_space l = true -> forallb is_space r = true ->
  estimate_text_tokens (PyStr (l ++ s ++ r)) = estimate_text_tokens (PyStr s).
Proof.
  intros Hs Hl Hr.
  assert (Hne : l ++ s ++ r <> []).
  { intros E; apply app_eq_nil in E; destruct E as (_ & E).
    apply app_eq_nil in E; tauto. }
  destruct s as [|c s]; [congruence|].
  destruct (l ++ (c :: s) ++ r) as [|d t] eqn:E; [congruence|].
  unfold estimate_text_tokens; cbn [truthy str_truthy negb].
  rewrite <- E, strip_padding by assumption. reflexivity.
Qed.

(** X2.  The estimate of a text is 0 only for the empty text: every
    other text counts at least one token, a text of whitespace only
    exactly one.  It never exceeds [max(1, len(text) // 4)], and it is
    [max(1, len(text) // 4)] for a text that neither starts nor ends with
    whitespace. *)
Theorem estimate_text_tokens_bounds (s : pystr) :
  exists n,
    estimate_text_tokens (PyStr s) = Ok n
    /\ (n = 0 <-> s = [])
    /\ 0 <= n <= Z.max 1 (len s / 4)
    /\ (s <> [] -> forallb is_space s = true -> n = 1)
    /\ (forall c t d, s = c :: t ++ [d] ->
                      is_space c = false -> is_space d = false ->
                      n = Z.max 1 (len s / 4)).
Proof.
  destruct s as [|c s].
  - exists 0. split; [reflexivity|]. split; [tauto|].
    split; [cbn; lia|]. split; [congruence|].
    intros c t d H; discriminate H.
  - exists (Z.max 1 (len (strip (c :: s)) / 4)).
    split; [reflexivity|].
    pose proof (strip_length (c :: s)) as Hlen.
    pose proof (len_nonneg (strip (c :: s))) as H0.
    assert (len (strip (c :: s)) / 4 <= len (c :: s) / 4)
      by (apply Z.div_le_mono; lia).
    split; [split; [lia | discriminate]|].
    split; [lia|]. split.
    + intros _ Hsp. rewrite (strip_all_spaces _ Hsp). reflexivity.
    + intros c' t d E Hc Hd. rewrite E, (strip_unpadded _ _ _ Hc Hd).
      reflexivity.
Qed.

(** ** The output estimate *)

(** The estimate in closed form, on the whole range of the floats. *)
Lemma estimate_output_tokens_closed_form (n : Z) :
  0 <= n < overflow_threshold ->
  estimate_output_tokens n = Ok (Z.max 50 (Z.min (3 * n / 5) 4000)).
Proof.
  intros (H0 & HT).
  destruct (Z_lt_le_dec n 6667) as [L | G].
  - apply estimate_output_tokens_below_6667; lia.
  - rewrite estimate_output_tokens_from_6667 by lia.
    f_equal.
    assert (4000 <= 3 * n / 5) by (apply Z.div_le_lower_bound; lia).
    lia.
Qed.

(** X14.  More input tokens never give fewer output tokens. *)
Theorem estimate_output_tokens_monotone (n m : Z) :
  0 <= n -> n <= m -> m < overflow_threshold ->
  exists a b,
    estimate_output_tokens n = Ok a
    /\ estimate_output_tokens m = Ok b
    /\ a <= b.
Proof.
  intros H0 Hnm HT.
  exists (Z.max 50 (Z.min (3 * n / 5) 4000)),
         (Z.max 50 (Z.min (3 * m / 5) 4000)).
  split; [apply estimate_output_tokens_closed_form; lia|].
  split; [apply estimate_output_tokens_closed_form; lia|].
  assert (3 * n / 5 <= 3 * m / 5) by (apply Z.div_le_mono; lia).
  lia.
Qed.

(** X15.  The floor of 50 applies exactly up to 84 input tokens and the
    cap of 4000 exactly from 6667 input tokens on; between them the
    estimate is [3 * input_tokens // 5].  So the estimate never exceeds
    60 percent of the input, unless it is the floor of 50. *)
Theorem estimate_output_tokens_thresholds (n : Z) :
  0 <= n < overflow_threshold ->
  exists o,
    estimate_output_tokens n = Ok o
    /\ (o = 50 <-> n <= 84)
    /\ (o = 4000 <-> 6667 <= n)
    /\ (85 <= n <= 6666 -> o = 3 * n / 5)
    /\ 5 * o <= Z.max 250 (3 * n).
Proof.
  intros Hn.
  exists (Z.max 50 (Z.min (3 * n / 5) 4000)).
  split; [apply estimate_output_tokens_closed_form; exact Hn|].
  pose proof (Z.div_mod (3 * n) 5 ltac:(lia)) as Hdm.
  pose proof (Z.mod_pos_bound (3 * n) 5 ltac:(lia)) as Hmod.
  repeat split; lia.
Qed.

(* ================================================================== *)
(** * Further properties of the uploaded files *)

(** ** File-name suffixes *)

(** Two suffixes of one name: one is a suffix of the other. *)
Lemma endswith_two_suffixes (name a b : string) :
  endswith name a = true -> endswith name b = true ->
  endswith a b = true \/ endswith b a = true.
Proof.
  induction name as [|c name IH]; cbn [endswith]; intros Ha Hb.
  - rewrite orb_false_r in Ha, Hb.
    apply String.eqb_eq in Ha, Hb; subst a b. now left.
  - destruct (String.eqb (String c name) a) eqn:Ea.
    + apply String.eqb_eq in Ea; subst a. left. exact Hb.
    + destruct (String.eqb (String c name) b) eqn:Eb.
      * apply String.eqb_eq in Eb; subst b. right.
        cbn [endswith]. rewrite Ea. exact Ha.
      * apply IH; assumption.
Qed.

(** A name that ends in [.txt] ends in no image extension and not in
    [.pdf]. *)
Lemma endswith_txt_only (name : string) :
  endswith name ".txt" = true ->
  existsb (endswith name) image_extensions = false
  /\ endswith name ".pdf" = false.
Proof.
  intros Htxt; split; apply not_true_iff_false; intros H.
  - apply existsb_exists in H; destruct H as (ext & Hin & Hext).
    destruct (endswith_two_suffixes _ _ _ Htxt Hext) as [H1 | H1];
      simpl in Hin;
      repeat (destruct Hin as [<- | Hin]; [vm_compute in H1; discriminate H1|]);
      exact Hin.
  - destruct (endswith_two_suffixes _ _ _ Htxt H) as [H1 | H1];
      vm_compute in H1; discriminate H1.
Qed.

(** ** Decoding UTF-8 *)

Lemma option_map_cons_inv (c : Z) (o : option pystr) (text : pystr) :
  option_map (cons c) o = Some text -> exists t, o = Some t /\ text = c :: t.
Proof.
  destruct o as [t|]; [|discriminate].
  intros [= <-]; now exists t.
Qed.

(** A decoded text has at most as many characters as there are bytes. *)
Lemma utf8_decode_length_bounded (n : nat) (bs : bytes) (text : pystr) :
  (List.length bs <= n)%nat ->
  utf8_decode bs = Some text ->
  (List.length text <= List.length bs)%nat.
Proof.
  revert bs text; induction n as [|n IH]; intros bs text Hn.
  - destruct bs; [|simpl in Hn; lia]. intros [= <-]; simpl; lia.
  - destruct bs as [|b0 r0]; [intros [= <-]; simpl; lia|].
    cbn [utf8_decode].
    destruct (byte_val b0 <? 128).
    { intros H; apply option_map_cons_inv in H; destruct H as (t & Ht & ->).
      apply IH in Ht; simpl in *; lia. }
    destruct ((192 <=? byte_val b0) && (byte_val b0 <? 224)).
    { destruct r0 as [|b1 r1]; [discriminate|].
      match goal with |- (if ?c then _ else _) = _ -> _ => destruct c end;
        [|discriminate].
      intros H; apply option_map_cons_inv in H; destruct H as (t & Ht & ->).
      apply IH in Ht; simpl in *; lia. }
    destruct ((224 <=? byte_val b0) && (byte_val b0 <? 240)).
    { destruct r0 as [|b1 [|b2 r2]]; try discriminate.
      match goal with |- (if ?c then _ else _) = _ -> _ => destruct c end;
        [|discriminate].
      intros H; apply option_map_cons_inv in H; destruct H as (t & Ht & ->).
      apply IH in Ht; simpl in *; lia. }
    destruct ((240 <=? byte_val b0) && (byte_val b0 <? 248)); [|discriminate].
    destruct r0 as [|b1 [|b2 [|b3 r3]]]; try discriminate.
    match goal with |- (if ?c then _ else _) = _ -> _ => destruct c end;
      [|discriminate].
    intros H; apply option_map_cons_inv in H; destruct H as (t & Ht & ->).
    apply IH in Ht; simpl in *; lia.
Qed.

Lemma utf8_decode_length (bs : bytes) (text : pystr) :
  utf8_decode bs = Some text -> len text <= len bs.
Proof.
  intros H. apply (utf8_decode_length_bounded (List.length bs)) in H; [|lia].
  unfold len; lia.
Qed.


(** Bytes below 128 decode to themselves. *)
Lemma utf8_decode_ascii (bs : bytes) :
  forallb (fun b => byte_val b <? 128) bs = true ->
  utf8_decode bs = Some (map byte_val bs).
Proof.
  induction bs as [|b bs IH]; [reflexivity|].
  cbn [forallb]; intros H; apply andb_true_iff in H; destruct H as (Hb & Hbs).
  cbn [utf8_decode map]. rewrite Hb, (IH Hbs). reflexivity.
Qed.

(** ** Counting pages *)

(** The occurrences of [/Page] do not overlap: each takes five bytes. *)
Lemma occurrences_slash_Page_bound (s : bytes) :
  5 * occurrences slash_Page s <= len s.
Proof.
  remember (List.length s) as n eqn:Hn.
  revert s Hn; induction n as [n IH] using lt_wf_ind; intros s Hn.
  destruct s as [|c s]; [cbn; lia|].
  cbn [occurrences].
  destruct (starts_with slash_Page (c :: s)) eqn:Hm.
  - apply starts_with_iff in Hm; destruct Hm as (t & Ht).
    unfold slash_Page in Ht; simpl in Ht; injection Ht as -> ->.
    change (occurrences slash_Page (x50 :: x61 :: x67 :: x65 :: t))
      with (0 + (0 + (0 + (0 + occurrences slash_Page t)))).
    pose proof (IH (List.length t) ltac:(subst n; simpl; lia) t eq_refl).
    unfold len in *; simpl List.length. lia.
  - pose proof (IH (List.length s) ltac:(subst n; simpl; lia) s eq_refl).
    unfold len in *; simpl List.length. lia.
Qed.

Lemma count_pdf_pages_le (b : bytes) :
  count_pdf_pages (BytesObj b) <= Z.max 1 (len b / 5).
Proof.
  rewrite count_pdf_pages_bytes.
  pose proof (occurrences_slash_Page_bound b).
  assert (occurrences slash_Page b <= len b / 5)
    by (apply Z.div_le_lower_bound; lia).
  lia.
Qed.

Lemma starts_with_app (p q s : bytes) :
  starts_with (p ++ q) s = true -> starts_with p s = true.
Proof.
  revert s; induction p as [|a p IH]; intros s; [reflexivity|].
  destruct s as [|c s]; cbn [app starts_with]; [discriminate|].
  intros H; apply andb_true_iff in H; destruct H as (-> & H).
  now rewrite (IH s H).
Qed.

Lemma occurrences_longer_pattern (p q s : bytes) :
  occurrences (p ++ q) s <= occurrences p s.
Proof.
  induction s as [|c s IH]; [reflexivity|].
  cbn [occurrences].
  destruct (starts_with (p ++ q) (c :: s)) eqn:H.
  - rewrite (starts_with_app _ _ _ H). lia.
  - destruct (starts_with p (c :: s)); lia.
Qed.

(** X18.  The page count is a count of names, not of page objects: every
    occurrence of a longer name that starts with [/Page], such as
    [/Pages], [/PageLabels] or [/PageMode], is counted as a page. *)
Theorem longer_names_count_as_pages (content suffix : bytes) :
  occurrences (slash_Page ++ suffix) content
  <= count_pdf_pages (BytesObj content).
Proof.
  rewrite count_pdf_pages_bytes.
  pose proof (occurrences_longer_pattern slash_Page suffix content).
  lia.
Qed.

Section UploadProperties.

Variable secure_filename : pystr -> string.

Lemma breakdown_add_comm (a b : Breakdown) :
  breakdown_add a b = breakdown_add b a.
Proof. unfold breakdown_add; f_equal; lia. Qed.

Lemma process_files_cons (f : FileStorage) (fs : list FileStorage) :
  process_files secure_filename (f :: fs)
  = breakdown_add (process_file secure_filename no_tokens f)
                  (process_files secure_filename fs).
Proof.
  change (f :: fs) with ([f] ++ fs).
  now rewrite process_files_app, process_files_single.
Qed.

(** What a text file adds, on its own. *)
Lemma process_file_txt (file : FileStorage) (acc : Breakdown) :
  endswith (tested_name secure_filename file) ".txt" = true ->
  process_file secure_filename acc file
  = {| text_tokens :=
         text_tokens acc
         + match utf8_decode (content file) with
           | Some [] => 0
           | Some text => Z.max 1 (len (strip text) / 4)
           | None => len (content file) / 4
           end;
       image_tokens := image_tokens acc;
       document_tokens := document_tokens acc |}.
Proof.
  intros Htxt. unfold process_file.
  unfold tested_name in Htxt.
  destruct (endswith_txt_only _ Htxt) as (-> & ->). rewrite Htxt.
  destruct (utf8_decode (content file)) as [[|c text]|]; reflexivity.
Qed.

(** X3.  A file whose lower-cased, sanitised name ends in [.txt] adds
    text tokens only.  When its bytes are valid UTF-8 they are decoded
    and estimated as a text ([estimate_text_tokens] of the decoded
    characters, not of the bytes); when they are not, the fallback is
    [len(content) // 4], with no minimum of 1. *)
Theorem text_file_tokens (file : FileStorage) :
  endswith (tested_name secure_filename file) ".txt" = true ->
  (forall text,
     utf8_decode (content file) = Some text ->
     exists n,
       estimate_text_tokens (PyStr text) = Ok n
       /\ forall acc,
            process_file secure_filename acc file
            = {| text_tokens := text_tokens acc + n;
                 image_tokens := image_tokens acc;
                 document_tokens := document_tokens acc |})
  /\ (utf8_decode (content file) = None ->
      forall acc,
        process_file secure_filename acc file
        = {| text_tokens := text_tokens acc + len (content file) / 4;
             image_tokens := image_tokens acc;
             document_tokens := document_tokens acc |})
  /\ (forallb (fun b => byte_val b <? 128) (content file) = true ->
      content file <> [] ->
      process_files secure_filename [file]
      = {| text_tokens :=
             Z.max 1 (len (strip (map byte_val (content file))) / 4);
           image_tokens := 0;
           document_tokens := 0 |}).
Proof.
  intros Htxt. split; [|split].
  - intros text Hd.
    destruct text as [|c text].
    + exists 0; split; [reflexivity|].
      intros acc; now rewrite (process_file_txt file acc Htxt), Hd.
    + exists (Z.max 1 (len (strip (c :: text)) / 4)); split; [reflexivity|].
      intros acc; now rewrite (process_file_txt file acc Htxt), Hd.
  - intros Hd acc; now rewrite (process_file_txt file acc Htxt), Hd.
  - intros Hascii Hne.
    rewrite process_files_single, (process_file_txt file _ Htxt).
    rewrite (utf8_decode_ascii _ Hascii).
    destruct (content file) as [|b bs]; [congruence|]. reflexivity.
Qed.



(** What one file adds is bounded by its size. *)
Lemma process_file_total_le (file : FileStorage) :
  total_tokens (process_file secure_filename no_tokens file)
  <= 1600 + 100 * len (content file).
Proof.
  pose proof (len_nonneg (content file)) as Hlen.
  unfold process_file, total_tokens.
  destruct (existsb _ image_extensions);
    [cbn [text_tokens image_tokens document_tokens no_tokens]; lia|].
  destruct (endswith _ ".pdf").
  { pose proof (count_pdf_pages_le (content file)) as H2.
    assert (H5 : 5 * (len (content file) / 5) <= len (content file))
      by (apply Z.mul_div_le; lia).
    cbn [text_tokens image_tokens document_tokens no_tokens].
    lia. }
  destruct (endswith _ ".txt");
    cbn [text_tokens image_tokens document_tokens no_tokens]; [|lia].
  assert (H4 : len (content file) / 4 <= len (content file))
    by (apply Z.div_le_upper_bound; lia).
  destruct (utf8_decode (content file)) as [text|] eqn:Hd; [|lia].
  pose proof (utf8_decode_length _ _ Hd) as Hle.
  destruct (estimate_text_tokens_str text) as (n & Hn & Hn0 & _).
  rewrite Hn.
  destruct text as [|c text]; [injection Hn as <-; lia|].
  change (estimate_text_tokens (PyStr (c :: text)))
    with (Ok (Z.max 1 (len (strip (c :: text)) / 4))) in Hn.
  injection Hn as <-.
  pose proof (strip_length (c :: text)) as Hs.
  pose proof (len_nonneg (strip (c :: text))) as Hs0.
  assert (len (strip (c :: text)) / 4 <= len (strip (c :: text)))
    by (apply Z.div_le_upper_bound; lia).
  lia.
Qed.


Lemma total_tokens_add (a b : Breakdown) :
  total_tokens (breakdown_add a b) = total_tokens a + total_tokens b.
Proof. unfold total_tokens, breakdown_add; cbn; lia. Qed.

Lemma process_files_total_le (fs : list FileStorage) :
  total_tokens (process_files secure_filename fs)
  <= 1600 * len fs + 100 * len (List.concat (map content fs)).
Proof.
  induction fs as [|f fs IH]; [cbn; lia|].
  rewrite process_files_cons, total_tokens_add.
  pose proof (process_file_total_le f).
  cbn [map List.concat]. unfold len in *.
  rewrite length_app. cbn [List.length]. lia.
Qed.

(** X6.  The breakdown does not depend on the order of the uploaded
    files. *)
Theorem process_files_order_independent (fs fs' : list FileStorage) :
  Permutation fs fs' ->
  process_files secure_filename fs = process_files secure_filename fs'.
Proof.
  induction 1 as [|f l l' _ IH|f g l|l l' l'' _ IH1 _ IH2].
  - reflexivity.
  - now rewrite !process_files_cons, IH.
  - rewrite !process_files_cons, <- !breakdown_add_assoc.
    f_equal. apply breakdown_add_comm.
  - now rewrite IH1.
Qed.


(** X8.  The tokens of an upload are bounded by its size: at most 1600
    per file plus 100 per byte of content. *)
Theorem upload_tokens_bounded_by_size (fs : list FileStorage) :
  0 <= total_tokens (process_files secure_filename fs)
    <= 1600 * len fs + 100 * len (List.concat (map content fs)).
Proof.
  split; [|apply process_files_total_le].
  destruct (process_files_nonneg secure_filename fs) as (Ht & Hi & Hd).
  unfold total_tokens; lia.
Qed.

End UploadProperties.

(* ================================================================== *)
(** * The cost figures as decimals *)

(** The sum of two floats is rounded once. *)
Lemma fadd_R (m1 e1 m2 e2 : Z) :
  let v := (F2R (Fin m1 e1) + F2R (Fin m2 e2))%R in
  (bpow (-1022) <= v)%R ->
  (v < IZR overflow_threshold)%R ->
  exists m e,
    fadd (Fin m1 e1) (Fin m2 e2) = Fin m e /\ canonical (Fin m e)
    /\ (- (v * bpow (-53)) <= F2R (Fin m e) - v <= v * bpow (-53))%R.
Proof.
  intros v Hlo Hhi. cbn [fadd]. unfold fl2.
  set (e := Z.min e1 e2).
  destruct (fl2_fraction (m1 * 2 ^ (e1 - e) + m2 * 2 ^ (e2 - e)) e) as (HQ & HP).
  apply fl_R; trivial.
  rewrite HP. unfold v; cbn [F2R].
  rewrite plus_IZR, !mult_IZR, !IZR_pow2 by lia.
  assert (E1 : (bpow (e1 - e) * bpow e = bpow e1)%R)
    by (rewrite <- bpow_add; f_equal; lia).
  assert (E2 : (bpow (e2 - e) * bpow e = bpow e2)%R)
    by (rewrite <- bpow_add; f_equal; lia).
  rewrite <- E1, <- E2. ring.
Qed.

Lemma literal_0_015 : literal 15 1000 = Fin 8646911284551352 (-59).
Proof. vm_compute. reflexivity. Qed.

Lemma F2R_0_003 :
  F2R (Fin 6917529027641082 (-61))
  = (6917529027641082 / 2305843009213693952)%R.
Proof. cbn [F2R]. rewrite bpow_m61. reflexivity. Qed.

Lemma F2R_0_015 :
  F2R (Fin 8646911284551352 (-59))
  = (8646911284551352 / 576460752303423488)%R.
Proof. cbn [F2R]. unfold bpow. simpl. lra. Qed.

Lemma fl_100 : fl 100 1 = Fin 7036874417766400 (-46).
Proof. vm_compute. reflexivity. Qed.

Lemma fl_7 : fl 7 1 = Fin 7881299347898368 (-50).
Proof. vm_compute. reflexivity. Qed.

Lemma fl_30 : fl 30 1 = Fin 8444249301319680 (-48).
Proof. vm_compute. reflexivity. Qed.

Lemma F2R_100 : F2R (Fin 7036874417766400 (-46)) = 100%R.
Proof. cbn [F2R]. unfold bpow. simpl. lra. Qed.

Lemma F2R_7 : F2R (Fin 7881299347898368 (-50)) = 7%R.
Proof. cbn [F2R]. unfold bpow. simpl. lra. Qed.

Lemma F2R_30 : F2R (Fin 8444249301319680 (-48)) = 30%R.
Proof. cbn [F2R]. unfold bpow. simpl. lra. Qed.

(** The unrounded input cost, within [2 * 10^-21] per token of
    [3 * input_tokens / 10^6]. *)
Lemma input_cost_R (x : Z) :
  0 <= x <= 10 ^ 11 ->
  exists m e,
    fmul (fl x 1000) (literal 3 1000) = Fin m e
    /\ (- (2 * IZR x / 1000000000000000000000)
        <= F2R (Fin m e) - 3 * IZR x / 1000000
        <= 2 * IZR x / 1000000000000000000000)%R.
Proof.
  intros (Hx0 & Hx).
  destruct (Z.eq_dec x 0) as [-> | Hne].
  { exists 0, (-1074). split; [vm_compute; reflexivity|]. cbn [F2R]. lra. }
  assert (Hx1 : (1 <= IZR x)%R) by (apply IZR_le; lia).
  assert (Hx2 : (IZR x <= 100000000000)%R).
  { apply IZR_le in Hx. exact Hx. }
  pose proof bpow_m1022_small as Hsmall.
  pose proof overflow_threshold_large as HT.
  destruct (fl_R x 1000 (IZR x / 1000)) as (mi & ei & Hi & _ & Herr);
    [lia | field | lra | lra |].
  rewrite Hi, literal_0_003.
  rewrite bpow_m53 in Herr.
  destruct (fmul_R mi ei 6917529027641082 (-61)) as (my & ey & Hy & _ & Herr').
  - rewrite F2R_0_003. lra.
  - rewrite F2R_0_003. lra.
  - exists my, ey. split; [exact Hy|].
    rewrite F2R_0_003, bpow_m53 in Herr'. lra.
Qed.

(** The unrounded output cost, within [10^-20] per token of
    [15 * output_tokens / 10^6]. *)
Lemma output_cost_R (o : Z) :
  0 <= o <= 10 ^ 11 ->
  exists m e,
    fmul (fl o 1000) (literal 15 1000) = Fin m e
    /\ (- (IZR o / 100000000000000000000)
        <= F2R (Fin m e) - 15 * IZR o / 1000000
        <= IZR o / 100000000000000000000)%R.
Proof.
  intros (Ho0 & Ho).
  destruct (Z.eq_dec o 0) as [-> | Hne].
  { exists 0, (-1074). split; [vm_compute; reflexivity|]. cbn [F2R]. lra. }
  assert (Ho1 : (1 <= IZR o)%R) by (apply IZR_le; lia).
  assert (Ho2 : (IZR o <= 100000000000)%R).
  { apply IZR_le in Ho. exact Ho. }
  pose proof bpow_m1022_small as Hsmall.
  pose proof overflow_threshold_large as HT.
  destruct (fl_R o 1000 (IZR o / 1000)) as (mi & ei & Hi & _ & Herr);
    [lia | field | lra | lra |].
  rewrite Hi, literal_0_015.
  rewrite bpow_m53 in Herr.
  destruct (fmul_R mi ei 8646911284551352 (-59)) as (my & ey & Hy & _ & Herr').
  - rewrite F2R_0_015. lra.
  - rewrite F2R_0_015. lra.
  - exists my, ey. split; [exact Hy|].
    rewrite F2R_0_015, bpow_m53 in Herr'. lra.
Qed.

(** The five roundings of [calculate_cost], for token counts that are not
    both 0. *)
Lemma cost_figures_exact (x o : Z) :
  0 <= x <= 10 ^ 11 -> 0 <= o <= 10 ^ 11 -> 0 < x + o ->
  let input_cost := fmul (fl x 1000) (literal 3 1000) in
  let output_cost := fmul (fl o 1000) (literal 15 1000) in
  let total_cost := fadd input_cost output_cost in
  let daily_cost := fmul total_cost (fl 100 1) in
  round_ndigits input_cost 6 = Ok (fl (3 * x) (10 ^ 6))
  /\ round_ndigits output_cost 6 = Ok (fl (15 * o) (10 ^ 6))
  /\ round_ndigits total_cost 6 = Ok (fl (3 * x + 15 * o) (10 ^ 6))
  /\ round_ndigits (fmul daily_cost (fl 7 1)) 4
     = Ok (fl (21 * x + 105 * o) (10 ^ 4))
  /\ round_ndigits (fmul daily_cost (fl 30 1)) 4
     = Ok (fl (90 * x + 450 * o) (10 ^ 4)).
Proof.
  intros Hx Ho Hpos.
  assert (HT62 : 2 ^ 62 < overflow_threshold) by (vm_compute; reflexivity).
  assert (H62 : 2 ^ 62 = 4611686018427387904) by reflexivity.
  assert (Hx0 : (0 <= IZR x)%R) by (apply IZR_le; lia).
  assert (Ho0 : (0 <= IZR o)%R) by (apply IZR_le; lia).
  assert (Hx2 : (IZR x <= 100000000000)%R).
  { destruct Hx as (_ & Hx). apply IZR_le in Hx. exact Hx. }
  assert (Ho2 : (IZR o <= 100000000000)%R).
  { destruct Ho as (_ & Ho). apply IZR_le in Ho. exact Ho. }
  assert (Hxo : (1 <= IZR x + IZR o)%R).
  { rewrite <- plus_IZR. apply IZR_le. lia. }
  assert (H11 : 10 ^ 11 = 100000000000) by reflexivity.
  pose proof bpow_m1022_small as Hsmall.
  pose proof overflow_threshold_large as HT.
  destruct (input_cost_R x Hx) as (mi & ei & Hi & Herri).
  destruct (output_cost_R o Ho) as (mo & eo & Hoc & Herro).
  cbv zeta. rewrite Hi, Hoc.
  destruct (fadd_R mi ei mo eo) as (mt & et & Ht & _ & Herrt); [lra | lra |].
  rewrite Ht, fl_100, fl_7, fl_30.
  rewrite bpow_m53 in Herrt.
  destruct (fmul_R mt et 7036874417766400 (-46)) as (md & ed & Hd & _ & Herrd);
    [rewrite F2R_100; lra | rewrite F2R_100; lra |].
  rewrite Hd. rewrite F2R_100, bpow_m53 in Herrd.
  destruct (fmul_R md ed 7881299347898368 (-50)) as (mw & ew & Hw & _ & Herrw);
    [rewrite F2R_7; lra | rewrite F2R_7; lra |].
  rewrite Hw. rewrite F2R_7, bpow_m53 in Herrw.
  destruct (fmul_R md ed 8444249301319680 (-48)) as (mm & em & Hm & _ & Herrm);
    [rewrite F2R_30; lra | rewrite F2R_30; lra |].
  rewrite Hm. rewrite F2R_30, bpow_m53 in Herrm.
  repeat split.
  - apply round_ndigits_nearest; [lia | |].
    + change (10 ^ 6) with 1000000. rewrite mult_IZR. lra.
    + change (10 ^ 6) with 1000000. lia.
  - apply round_ndigits_nearest; [lia | |].
    + change (10 ^ 6) with 1000000. rewrite mult_IZR. lra.
    + change (10 ^ 6) with 1000000. lia.
  - apply round_ndigits_nearest; [lia | |].
    + change (10 ^ 6) with 1000000. rewrite plus_IZR, !mult_IZR. lra.
    + change (10 ^ 6) with 1000000. lia.
  - apply round_ndigits_nearest; [lia | |].
    + change (10 ^ 4) with 10000. rewrite plus_IZR, !mult_IZR. lra.
    + change (10 ^ 4) with 10000. lia.
  - apply round_ndigits_nearest; [lia | |].
    + change (10 ^ 4) with 10000. rewrite plus_IZR, !mult_IZR. lra.
    + change (10 ^ 4) with 10000. lia.
Qed.

(** [calculate_cost] in closed form, up to [10^11] tokens. *)
Lemma calculate_cost_decimals (input_tokens output_tokens : Z) :
  0 <= input_tokens <= 10 ^ 11 ->
  0 <= output_tokens <= 10 ^ 11 ->
  calculate_cost input_tokens output_tokens
  = Ok {| input := fl (3 * input_tokens) (10 ^ 6);
          output := fl (15 * output_tokens) (10 ^ 6);
          total_per_request :=
            fl (3 * input_tokens + 15 * output_tokens) (10 ^ 6);
          weekly_estimate :=
            fl (21 * input_tokens + 105 * output_tokens) (10 ^ 4);
          monthly_estimate :=
            fl (90 * input_tokens + 450 * output_tokens) (10 ^ 4) |}.
Proof.
  intros Hx Ho.
  destruct (Z.eq_dec (input_tokens + output_tokens) 0) as [E | NE].
  { assert (input_tokens = 0) as -> by lia.
    assert (output_tokens = 0) as -> by lia.
    vm_compute. reflexivity. }
  assert (HT : 10 ^ 11 < 1000 * overflow_threshold) by (vm_compute; reflexivity).
  destruct (calculate_cost_returns input_tokens output_tokens)
    as (i & o & cost & Hi & Hoo & Hc & H1 & H2 & H3 & H4 & H5);
    [lia | lia |].
  apply truediv_ok in Hi, Hoo. subst i o.
  destruct (cost_figures_exact input_tokens output_tokens Hx Ho ltac:(lia))
    as (E1 & E2 & E3 & E4 & E5).
  cbv zeta in E1, E2, E3, E4, E5.
  rewrite E1 in H1. rewrite E2 in H2. rewrite E3 in H3.
  rewrite E4 in H4. rewrite E5 in H5.
  rewrite Hc. destruct cost as [c1 c2 c3 c4 c5].
  cbn [input output total_per_request weekly_estimate monthly_estimate] in *.
  injection H1 as <-. injection H2 as <-. injection H3 as <-.
  injection H4 as <-. injection H5 as <-. reflexivity.
Qed.

(** X16.  Up to [10^11] input and output tokens, float arithmetic loses
    nothing: the five figures of [calculate_cost] are the floats nearest
    to the exact decimal amounts [3 * in / 10^6], [15 * out / 10^6],
    [(3 * in + 15 * out) / 10^6], [(21 * in + 105 * out) / 10^4] and
    [(90 * in + 450 * out) / 10^4]. *)
Theorem calculate_cost_exact_decimals (input_tokens output_tokens : Z) :
  0 <= input_tokens <= 10 ^ 11 ->
  0 <= output_tokens <= 10 ^ 11 ->
  calculate_cost input_tokens output_tokens
  = Ok {| input := fl (3 * input_tokens) (10 ^ 6);
          output := fl (15 * output_tokens) (10 ^ 6);
          total_per_request :=
            fl (3 * input_tokens + 15 * output_tokens) (10 ^ 6);
          weekly_estimate :=
            fl (21 * input_tokens + 105 * output_tokens) (10 ^ 4);
          monthly_estimate :=
            fl (90 * input_tokens + 450 * output_tokens) (10 ^ 4) |}.
Proof. apply calculate_cost_decimals. Qed.

(* ================================================================== *)
(** * Further properties of the request handler *)

Section HandlerOutcomes.

Variable secure_filename : pystr -> string.
Variable exn_str : exn -> string.

(** ** Reading the text input *)




(** X10.  A [text_input] that is missing, or present with a false value
    of any type (null, false, 0, an empty string, list or object), is
    ignored: the breakdown is that of the uploaded files. *)
Theorem absent_or_falsy_text_input_is_ignored (request : Request) :
  (forall items,
     is_json request = true ->
     json request = Some (PyDict items) ->
     lookup (str_lit "text_input") items = None
     \/ (exists v, lookup (str_lit "text_input") items = Some v
                   /\ truthy v = false) ->
     request_breakdown secure_filename request
     = Ok (files_breakdown secure_filename request))
  /\ (is_json request = false ->
      lookup (str_lit "text_input") (form request) = None ->
      request_breakdown secure_filename request
      = Ok (files_breakdown secure_filename request)).
Proof.
  unfold request_breakdown, text_input_step, request_json, py_get.
  split.
  - intros items -> -> [Hl | (v & Hl & Hv)]; cbn [bind]; rewrite Hl.
    + reflexivity.
    + now rewrite Hv.
  - intros -> Hl. rewrite Hl.
    destruct (nonempty (form request)); reflexivity.
Qed.

(** A non-empty text replaces the text tokens of the files. *)
Lemma request_breakdown_text (request : Request) (s : pystr) :
  s <> [] ->
  (is_json request = true
   /\ exists items,
        json request = Some (PyDict items)
        /\ lookup (str_lit "text_input") items = Some (PyStr s))
  \/ (is_json request = false
      /\ lookup (str_lit "text_input") (form request) = Some s) ->
  request_breakdown secure_filename request
  = Ok (set_text_tokens (files_breakdown secure_filename request)
          (Z.max 1 (len (strip s) / 4))).
Proof.
  intros Hs Hsup.
  destruct s as [|c s]; [congruence|].
  unfold request_breakdown, text_input_step, request_json, py_get.
  destruct Hsup as [(Hj & items & Hjs & Hl) | (Hj & Hl)].
  - rewrite Hj, Hjs; cbn [bind]; rewrite Hl; reflexivity.
  - rewrite Hj, (lookup_nonempty _ _ _ Hl), Hl; reflexivity.
Qed.

(** ** The outcomes of the handler *)

Lemma calculate_raise (request : Request) (e : exn) :
  request_breakdown secure_filename request = Raise e ->
  calculate secure_filename exn_str request = server_error exn_str e.
Proof. intros H; unfold calculate; now rewrite H. Qed.

Lemma respond_in_range (breakdown : Breakdown) :
  0 < total_tokens breakdown < overflow_threshold ->
  exists cost,
    calculate_cost (total_tokens breakdown)
      (Z.max 50 (Z.min (3 * total_tokens breakdown / 5) 4000)) = Ok cost
    /\ respond breakdown
       = Ok (success (total_tokens breakdown)
               (Z.max 50 (Z.min (3 * total_tokens breakdown / 5) 4000))
               breakdown cost).
Proof.
  intros (Hpos & Hlt).
  set (n := total_tokens breakdown) in *.
  assert (Ho : estimate_output_tokens n
               = Ok (Z.max 50 (Z.min (3 * n / 5) 4000))).
  { destruct (Z_lt_le_dec n 6667) as [L | G].
    - apply estimate_output_tokens_below_6667; lia.
    - rewrite estimate_output_tokens_from_6667 by lia.
      f_equal.
      assert (4000 <= 3 * n / 5) by (apply Z.div_le_lower_bound; lia).
      lia. }
  assert (HT : 4000 < overflow_threshold) by reflexivity.
  destruct (calculate_cost_returns n (Z.max 50 (Z.min (3 * n / 5) 4000)))
    as (_ & _ & cost & _ & _ & Hc & _); [lia | lia |].
  exists cost; split; [exact Hc|].
  unfold respond. fold n.
  destruct (Z.eqb_spec n 0) as [E | _]; [lia|].
  rewrite Ho; cbn [bind]. rewrite Hc; reflexivity.
Qed.

(** X11.  The handler has four outcomes.  When reading [request.files]
    raises (a body over the size limit, say), or when reading the text
    input raises, the answer is 500 with the text of the exception.
    Otherwise, for a total below the float range, it is the 400
    validation failure when the total is 0, and else the 200 answer, which
    reports the total as [tokens.input], [3 * total // 5] clamped to
    [50, 4000] as [tokens.output], the breakdown itself and the cost of
    the two. *)
Theorem handler_outcomes (incoming : result Request) :
  (forall e,
     incoming = Raise e ->
     api_calc secure_filename exn_str incoming = server_error exn_str e)
  /\ (forall request,
        incoming = Ok request ->
        (forall e,
           request_breakdown secure_filename request = Raise e ->
           api_calc secure_filename exn_str incoming = server_error exn_str e)
        /\ (forall breakdown,
              request_breakdown secure_filename request = Ok breakdown ->
              total_tokens breakdown < overflow_threshold ->
              (total_tokens breakdown = 0
               /\ api_calc secure_filename exn_str incoming
                  = validation_failure)
              \/ (0 < total_tokens breakdown
                  /\ exists cost,
                       calculate_cost (total_tokens breakdown)
                         (Z.max 50
                            (Z.min (3 * total_tokens breakdown / 5) 4000))
                       = Ok cost
                       /\ api_calc secure_filename exn_str incoming
                          = success (total_tokens breakdown)
                              (Z.max 50
                                 (Z.min (3 * total_tokens breakdown / 5) 4000))
                              breakdown cost))).
Proof.
  split; [intros e ->; reflexivity|].
  intros request ->; cbn [api_calc].
  split; [intros e; apply calculate_raise|].
  intros breakdown Hb Hlt.
  pose proof (request_breakdown_nonneg _ _ _ Hb) as (Ht & Hi & Hd).
  unfold calculate; rewrite Hb; cbn [bind].
  destruct (Z.eq_dec (total_tokens breakdown) 0) as [E | NE].
  - left; split; [exact E|]. unfold respond; now rewrite E.
  - assert (Hpos : 0 < total_tokens breakdown)
      by (unfold total_tokens in *; lia).
    right; split; [exact Hpos|].
    destruct (respond_in_range breakdown (conj Hpos Hlt)) as (cost & Hc & ->).
    now exists cost.
Qed.

(** X12.  A prompt made of whitespace only is not treated as missing:
    it counts one token, so with no file the answer is the 200 one, for 1
    input token and 50 output tokens. *)
Theorem whitespace_only_prompt_is_accepted (request : Request) (s : pystr) :
  s <> [] ->
  forallb is_space s = true ->
  (is_json request = true
   /\ exists items,
        json request = Some (PyDict items)
        /\ lookup (str_lit "text_input") items = Some (PyStr s))
  \/ (is_json request = false
      /\ lookup (str_lit "text_input") (form request) = Some s) ->
  files_breakdown secure_filename request = no_tokens ->
  calculate secure_filename exn_str request
  = success 1 50
      {| text_tokens := 1; image_tokens := 0; document_tokens := 0 |}
      {| input := fl 3 1000000;
         output := fl 75 100000;
         total_per_request := fl 753 1000000;
         weekly_estimate := fl 5271 10000;
         monthly_estimate := fl 2259 1000 |}.
Proof.
  intros Hs Hsp Hsup Hfiles.
  unfold calculate.
  rewrite (request_breakdown_text request s Hs Hsup), Hfiles.
  rewrite (strip_all_spaces s Hsp). cbn [bind].
  vm_compute. reflexivity.
Qed.

(** X13.  Only the parts uploaded under the key [files] are counted: a
    part under any other key changes nothing, and without a part under
    [files] the files give no token. *)
Theorem uploads_under_other_keys_are_ignored (request : Request) :
  (forall request' a key f b,
     files request = a ++ (key, f) :: b ->
     files request' = a ++ b ->
     key <> str_lit "files" ->
     files_breakdown secure_filename request
     = files_breakdown secure_filename request')
  /\ ((forall key f, In (key, f) (files request) -> key <> str_lit "files") ->
      files_breakdown secure_filename request = no_tokens).
Proof.
  split.
  - intros request' a key f b Hf Hf' Hkey.
    rewrite !files_breakdown_valid_files, Hf, Hf', !getlist_app.
    unfold getlist at 2; cbn [filter fst].
    unfold str_eqb. destruct (list_eq_dec Z.eq_dec key (str_lit "files"));
      [contradiction | reflexivity].
  - intros Hno. rewrite files_breakdown_valid_files.
    replace (getlist (str_lit "files") (files request)) with (@nil FileStorage);
      [reflexivity|].
    symmetry. apply getlist_no_key.
    unfold has_key. apply not_true_iff_false; intros H.
    apply existsb_exists in H; destruct H as ((key & f) & Hin & Heq).
    cbn [fst] in Heq. unfold str_eqb in Heq.
    destruct (list_eq_dec Z.eq_dec key (str_lit "files")) as [E | _];
      [|discriminate Heq].
    exact (Hno key f Hin E).
Qed.

End HandlerOutcomes.

(* ================================================================== *)
(** * Requests that are read without an exception *)

Section ParsedRequests.

Variable secure_filename : pystr -> string.
Variable exn_str : exn -> string.

Lemma valid_files_len (fs : list FileStorage) :
  len (valid_files fs) <= len fs.
Proof.
  unfold valid_files, len.
  pose proof (filter_length_le
                (fun f => FileStorage_bool f && str_truthy (filename f)) fs).
  lia.
Qed.

Lemma valid_files_bytes (fs : list FileStorage) :
  len (List.concat (map content (valid_files fs)))
  <= len (List.concat (map content fs)).
Proof.
  unfold valid_files, len.
  induction fs as [|f fs IH]; [reflexivity|].
  cbn [filter map List.concat].
  destruct (FileStorage_bool f && str_truthy (filename f));
    cbn [map List.concat]; rewrite ?length_app; lia.
Qed.

Lemma files_breakdown_total_le (request : Request) :
  total_tokens (files_breakdown secure_filename request)
  <= 1600 * len (getlist (str_lit "files") (files request))
     + 100 * len (List.concat
                    (map content (getlist (str_lit "files") (files request)))).
Proof.
  rewrite files_breakdown_valid_files.
  pose proof (process_files_total_le secure_filename
                (valid_files (getlist (str_lit "files") (files request)))).
  pose proof (valid_files_len (getlist (str_lit "files") (files request))).
  pose proof (valid_files_bytes (getlist (str_lit "files") (files request))).
  lia.
Qed.

(** X17.  For a request that is read without an exception, the total is
    bounded by the size of what was read: at most 1600 tokens per part
    uploaded as [files], 100 per byte of their content, and a quarter of
    the characters of the text input (or 1).  When the total is at most
    [10^11], the arithmetic neither overflows nor loses precision: the
    answer is the 400 validation failure when the total is 0, and else
    the 200 answer with the exact decimal cost figures. *)
Theorem parsed_request_is_answered_exactly
    (request : Request) (breakdown : Breakdown) :
  request_breakdown secure_filename request = Ok breakdown ->
  (forall n,
     (forall s,
        (is_json request = true
         /\ exists items,
              json request = Some (PyDict items)
              /\ lookup (str_lit "text_input") items = Some (PyStr s))
        \/ (is_json request = false
            /\ lookup (str_lit "text_input") (form request) = Some s) ->
        len s <= n) ->
     0 <= total_tokens breakdown
       <= 1600 * len (getlist (str_lit "files") (files request))
          + 100 * len (List.concat
                         (map content
                            (getlist (str_lit "files") (files request))))
          + Z.max 1 (n / 4))
  /\ (total_tokens breakdown <= 10 ^ 11 ->
      api_calc secure_filename exn_str (Ok request)
      = if total_tokens breakdown =? 0 then validation_failure
        else
          let output_tokens :=
            Z.max 50 (Z.min (3 * total_tokens breakdown / 5) 4000) in
          success (total_tokens breakdown) output_tokens breakdown
            {| input := fl (3 * total_tokens breakdown) (10 ^ 6);
               output := fl (15 * output_tokens) (10 ^ 6);
               total_per_request :=
                 fl (3 * total_tokens breakdown + 15 * output_tokens) (10 ^ 6);
               weekly_estimate :=
                 fl (21 * total_tokens breakdown + 105 * output_tokens)
                    (10 ^ 4);
               monthly_estimate :=
                 fl (90 * total_tokens breakdown + 450 * output_tokens)
                    (10 ^ 4) |}).
Proof.
  intros Hb.
  pose proof (request_breakdown_nonneg _ _ _ Hb) as (Ht & Hi & Hd).
  split.
  - intros n Htext.
    pose proof (files_breakdown_total_le request) as Hfiles.
    pose proof (files_breakdown_nonneg secure_filename request)
      as (Hft & Hfi & Hfd).
    split; [unfold total_tokens; lia|].
    unfold request_breakdown in Hb.
    destruct (text_input_step_cases _ _ _ Hb)
      as [-> | (s & m & Hs & Hm & -> & Hsup)]; [lia|].
    specialize (Htext s Hsup).
    destruct s as [|c s]; [congruence|].
    change (estimate_text_tokens (PyStr (c :: s)))
      with (Ok (Z.max 1 (len (strip (c :: s)) / 4))) in Hm.
    injection Hm as <-.
    pose proof (strip_length (c :: s)) as Hsl.
    assert (len (strip (c :: s)) / 4 <= n / 4)
      by (apply Z.div_le_mono; lia).
    unfold total_tokens, set_text_tokens in *.
    cbn [text_tokens image_tokens document_tokens]. lia.
  - intros Hle. cbn [api_calc].
    unfold calculate; rewrite Hb; cbn [bind].
    destruct (Z.eqb_spec (total_tokens breakdown) 0) as [E | NE].
    + unfold respond. now rewrite E.
    + assert (HT : 10 ^ 11 < overflow_threshold) by (vm_compute; reflexivity).
      assert (H11 : 10 ^ 11 = 100000000000) by reflexivity.
      assert (Hpos : 0 < total_tokens breakdown)
        by (unfold total_tokens in *; lia).
      destruct (respond_in_range breakdown ltac:(lia)) as (cost & Hc & ->).
      rewrite (calculate_cost_decimals (total_tokens breakdown)
                 (Z.max 50 (Z.min (3 * total_tokens breakdown / 5) 4000)))
        in Hc by lia.
      injection Hc as <-. reflexivity.
Qed.

End ParsedRequests.

(* ================================================================== *)
(** * The further properties at concrete inputs *)

(** Two blanks before and one after [ab cd] change nothing. *)
Lemma estimate_text_tokens_ignores_padding_example :
  forallb is_space (str_lit "  ") = true
  /\ forallb is_space (str_lit " ") = true
  /\ estimate_text_tokens
       (PyStr (str_lit "  " ++ str_lit "ab cd" ++ str_lit " "))
     = estimate_text_tokens (PyStr (str_lit "ab cd")).
Proof.
  split; [reflexivity|]. split; [reflexivity|].
  apply (estimate_text_tokens_ignores_padding
           (str_lit "  ") (str_lit "ab cd") (str_lit " "));
    [discriminate | reflexivity | reflexivity].
Defined.

(** Four euro signs are 12 bytes and 4 characters: one token, where the
    bytes would give three. *)
Lemma text_file_tokens_example :
  endswith (tested_name plain_name euro_text_file) ".txt" = true
  /\ utf8_decode (content euro_text_file) = Some [8364; 8364; 8364; 8364]
  /\ len (content euro_text_file) / 4 = 3
  /\ process_files plain_name [euro_text_file]
     = {| text_tokens := 1; image_tokens := 0; document_tokens := 0 |}.
Proof.
  split; [reflexivity|]. split; [reflexivity|]. split; [reflexivity|].
  destruct (proj1 (text_file_tokens plain_name euro_text_file eq_refl)
              [8364; 8364; 8364; 8364] eq_refl) as (n & Hn & H).
  injection Hn as <-.
  exact (H no_tokens).
Defined.



Lemma process_files_order_independent_example :
  Permutation [notes_file; zero_byte_photo; three_page_report]
              [three_page_report; notes_file; zero_byte_photo]
  /\ process_files plain_name [notes_file; zero_byte_photo; three_page_report]
     = process_files plain_name [three_page_report; notes_file; zero_byte_photo].
Proof.
  assert (P : Permutation [notes_file; zero_byte_photo; three_page_report]
                          [three_page_report; notes_file; zero_byte_photo]).
  { apply Permutation_sym.
    apply (Permutation_cons_app [notes_file; zero_byte_photo] []).
    apply Permutation_refl. }
  split; [exact P|].
  apply (process_files_order_independent plain_name _ _ P).
Defined.


Lemma absent_text_input_example :
  lookup (str_lit "text_input") (form avatar_request) = None
  /\ request_breakdown plain_name avatar_request
     = Ok {| text_tokens := 6; image_tokens := 0; document_tokens := 0 |}.
Proof.
  split; [reflexivity|].
  exact (proj2 (absent_or_falsy_text_input_is_ignored plain_name avatar_request)
           eq_refl eq_refl).
Defined.

(** A body that is refused, and a JSON post with [text_input: true]:
    both are answered with 500. *)
Lemma handler_outcomes_example :
  api_calc plain_name plain_text (Raise RequestEntityTooLarge)
  = server_error plain_text RequestEntityTooLarge
  /\ api_calc plain_name plain_text (Ok number_request)
     = server_error plain_text AttributeError
  /\ status (api_calc plain_name plain_text (Ok number_request)) = 500.
Proof.
  pose proof (proj1 (handler_outcomes plain_name plain_text
                       (Raise RequestEntityTooLarge))
                RequestEntityTooLarge eq_refl) as H1.
  pose proof (proj1 (proj2 (handler_outcomes plain_name plain_text
                              (Ok number_request))
                       number_request eq_refl)
                AttributeError eq_refl) as H2.
  split; [exact H1|]. split; [exact H2|]. rewrite H2. reflexivity.
Defined.

(** Three blanks as the prompt of a JSON post: 200. *)
Lemma whitespace_only_prompt_example :
  forallb is_space (str_lit "   ") = true
  /\ status (calculate plain_name plain_text (json_request "   ")) = 200.
Proof.
  split; [reflexivity|].
  rewrite (whitespace_only_prompt_is_accepted plain_name plain_text
             (json_request "   ") (str_lit "   ")).
  - reflexivity.
  - discriminate.
  - reflexivity.
  - left. split; [reflexivity|].
    exists [(str_lit "text_input", PyStr (str_lit "   "))].
    split; reflexivity.
  - reflexivity.
Defined.

(** The photo sent as [avatar] is not counted. *)
Lemma uploads_under_other_keys_example :
  files_breakdown plain_name avatar_request
  = files_breakdown plain_name (upload_request [notes_file] "").
Proof.
  apply (proj1 (uploads_under_other_keys_are_ignored plain_name avatar_request)
           (upload_request [notes_file] "")
           [] (str_lit "avatar") zero_byte_photo
           [(str_lit "files", notes_file)]);
    [reflexivity | reflexivity | discriminate].
Defined.

Lemma estimate_output_tokens_monotone_example :
  exists a b,
    estimate_output_tokens 100 = Ok a
    /\ estimate_output_tokens 200 = Ok b
    /\ a <= b.
Proof.
  apply (estimate_output_tokens_monotone 100 200); [lia | lia | reflexivity].
Defined.

(** 84 input tokens are the last to give the floor of 50. *)
Lemma estimate_output_tokens_thresholds_example :
  exists o, estimate_output_tokens 84 = Ok o /\ o = 50.
Proof.
  destruct (estimate_output_tokens_thresholds 84) as (o & Ho & H50 & _).
  - split; [lia | reflexivity].
  - exists o. split; [exact Ho|]. apply H50. lia.
Defined.

(** 1000 input and 600 output tokens: 0.003, 0.009, 0.012, 8.4 and 36. *)
Lemma calculate_cost_exact_decimals_example :
  calculate_cost 1000 600
  = Ok {| input := fl 3 1000;
          output := fl 9 1000;
          total_per_request := fl 12 1000;
          weekly_estimate := fl 84 10;
          monthly_estimate := fl 36 1 |}.
Proof.
  rewrite (calculate_cost_exact_decimals 1000 600) by lia.
  reflexivity.
Defined.

(** A note and a photo with a prompt of 54 characters: 1613 tokens. *)
Lemma parsed_request_example :
  request_breakdown plain_name
    (upload_request [notes_file; zero_byte_photo]
       "Hello world, this is a test prompt for the calculator.")
  = Ok {| text_tokens := 13; image_tokens := 1600; document_tokens := 0 |}
  /\ status (api_calc plain_name plain_text
               (Ok (upload_request [notes_file; zero_byte_photo]
                      "Hello world, this is a test prompt for the calculator.")))
     = 200.
Proof.
  split; [reflexivity|].
  rewrite (proj2 (parsed_request_is_answered_exactly plain_name plain_text
                    (upload_request [notes_file; zero_byte_photo]
                       "Hello world, this is a test prompt for the calculator.")
                    {| text_tokens := 13; image_tokens := 1600;
                       document_tokens := 0 |}
                    eq_refl)).
  - reflexivity.
  - vm_compute; discriminate.
Defined.
